(** * The recorder thread of Kolen'sSnapshots (src/v3gyazio.py)

    A shallow embedding of [RecorderThread]: the timed capture loop with
    its pause and stop flags, the spool of PNG frames in a temporary
    directory, the assembly of the GIF and the upload with its fallback to
    the local path.

    What the thread touches outside itself is explicit:
    - the file system is a finite map from path strings to files;
    - the signals it emits, the sleeps it takes and the files it writes
      are logged, in order, in a trace;
    - the screen grabber, the clock, the encoder and the HTTP server are
      oracles: each loop iteration and the final stage receive the answers
      the outside world gives them;
    - the calls [pause()], [resume()] and [stop()] of the GUI thread reach
      the loop at the two places where it reads the flags.

    Clock readings and durations are exact rationals; the rounding of
    Python's floats is not modelled. The GIF encoder is part of the
    outside world too: a GIF file is recorded by the frames and the rate
    the encoder was called with, and what the file then holds is what the
    world's encoder makes of them. *)

From Stdlib Require Import Ascii QArith Qminmax Lqa DecimalString DecimalNat.
From stdpp Require Import gmap strings list fin_maps.

Set Warnings "-register-all".

(** ** Strings, numbers and paths as Python prints them *)

Module PyStr.

(** [str(n)] for a non-negative [int]. *)
Definition str_nat (n : nat) : string :=
  NilEmpty.string_of_uint (Nat.to_uint n).

(** [str(z)] for an [int]. *)
Definition str_int (z : Z) : string :=
  NilZero.string_of_int (Z.to_int z).

Fixpoint zeros (k : nat) : string :=
  match k with
  | O => EmptyString
  | S k' => String "0"%char (zeros k')
  end.

(** [s.zfill(w)] for a string of digits. *)
Definition zfill (w : nat) (s : string) : string :=
  zeros (w - String.length s) +:+ s.

(** The format [{n:06d}] for a non-negative [n]. *)
Definition fmt_06d (n : nat) : string := zfill 6 (str_nat n).

(** [s.rstrip('/')]. *)
Fixpoint rstrip_slash (s : string) : string :=
  match s with
  | EmptyString => EmptyString
  | String c r =>
      match rstrip_slash r with
      | EmptyString => if Ascii.eqb c "/"%char then EmptyString else String c EmptyString
      | r' => String c r'
      end
  end.

(** [str(Path(d) / name)] on a POSIX system. *)
Definition pjoin (d name : string) : string := d +:+ "/" +:+ name.

(** A path lies inside directory [d]. *)
Definition inside (d p : string) : bool := String.prefix (d +:+ "/") p.

(** Reading a run of decimal digits back, leading zeros allowed. *)
Definition digits_value (s : string) : option nat :=
  Nat.of_uint <$> NilEmpty.uint_of_string s.

End PyStr.

(** ** Python values, as far as the JSON body of the upload response goes *)

Module Py.

Inductive value : Type :=
| VNone
| VBool (b : bool)
| VInt (z : Z)
| VStr (s : string)
| VList (l : list value)
| VDict (kvs : list (string * value)).

(** Truth value of an object, as [if v:] and [v or w] test it. *)
Definition truthy (v : value) : bool :=
  match v with
  | VNone => false
  | VBool b => b
  | VInt z => negb (z =? 0)%Z
  | VStr s => negb (String.eqb s "")
  | VList l => match l with [] => false | _ :: _ => true end
  | VDict kvs => match kvs with [] => false | _ :: _ => true end
  end.

(** [a or b]. *)
Definition por (a b : value) : value := if truthy a then a else b.

(** A JSON object is kept as its members in source order; a later
    member overrides an earlier one with the same name. *)
Fixpoint dict_find (kvs : list (string * value)) (k : string) : option value :=
  match kvs with
  | [] => None
  | (k', v) :: rest =>
      match dict_find rest k with
      | Some w => Some w
      | None => if String.eqb k' k then Some v else None
      end
  end.

(** [d.get(k, default)]. *)
Definition dict_get (kvs : list (string * value)) (k : string) (default : value) : value :=
  match dict_find kvs k with
  | Some v => v
  | None => default
  end.

End Py.

(** ** Errors: a call either returns or raises with a message *)

Inductive result (A : Type) : Type :=
| Ok (a : A)
| Raise (msg : string).
Arguments Ok {A} a.
Arguments Raise {A} msg.

Definition rbind {A B : Type} (r : result A) (k : A -> result B) : result B :=
  match r with
  | Ok a => k a
  | Raise msg => Raise msg
  end.

Notation "'let!' x ':=' r 'in' k" := (rbind r (fun x => k))
  (at level 10, x name, r at level 100, k at level 200).

(** ** Images and files *)

(** What [mss] hands back for one grab: [s.size] and [s.rgb]. *)
Record screenshot : Type := { shot_size : Z * Z; shot_rgb : list Z }.

(** A PIL image. *)
Record image : Type := { im_mode : string; im_size : Z * Z; im_data : list Z }.

(** [Image.frombytes(mode, size, data)]. *)
Definition frombytes (mode : string) (sz : Z * Z) (data : list Z) : image :=
  {| im_mode := mode; im_size := sz; im_data := data |}.

(** A file is recorded by how it came about: a PNG by the image saved to
    it; a GIF by the frame list and the [fps] argument [imageio.mimsave]
    was called with (what the file holds is the encoder's business, see
    [encoder] and [gif_contents] below); [Truncated] is what an encoder
    that raised half-way has left behind. *)
Inductive file : Type :=
| Png (img : image)
| Gif (frames : list image) (fps : Z)
| Truncated.

(** The grab area handed to [sct.grab]. *)
Record monitor : Type := { m_left : Z; m_top : Z; m_width : Z; m_height : Z }.

(** ** The upload response *)

Record response : Type := {
  status_code : Z;
  (** [r.json()]: the parsed body, or [None] when parsing raises *)
  json : option Py.value
}.

Inductive post_result : Type :=
| PostRaises (msg : string)
| PostReturns (r : response).

(** ** What the outside world sees of a run, in order *)

Inductive event : Type :=
| progress_signal (text : string)
| finished_signal (v : Py.value)
| slept (secs : Q)
| saved (path : string) (img : image)
| posted (url : string).

(** ** The recorder *)

(** The fields [__init__] sets once. *)
Record RecorderThread : Type := {
  bbox : Z * Z * Z * Z;
  fps : Z;
  server_url : option string;
  tmpdir : string
}.

(** The two flags shared with the GUI thread. *)
Record flags : Type := { _pause : bool; _stop : bool }.

Definition pause (f : flags) : flags := {| _pause := true; _stop := _stop f |}.
Definition resume (f : flags) : flags := {| _pause := false; _stop := _stop f |}.
Definition stop (f : flags) : flags := {| _pause := _pause f; _stop := true |}.

(** [MainWindow.on_stop]: nothing happens without a recorder. *)
Definition on_stop (recorder : option flags) : option flags :=
  match recorder with
  | None => None
  | Some f => Some (stop f)
  end.

Inductive call : Type := CallPause | CallResume | CallStop.

Definition apply_call (f : flags) (c : call) : flags :=
  match c with
  | CallPause => pause f
  | CallResume => resume f
  | CallStop => stop f
  end.

Definition apply_calls (cs : list call) (f : flags) : flags :=
  fold_left apply_call cs f.

(** The state of a running thread: the flags, the local variables of
    [run], the file system and the trace. *)
Record state : Type := {
  ctl : flags;
  frame_paths : list string;
  frame_num : nat;
  fs : gmap string file;
  trace : list event
}.

Definition with_ctl (f : flags) (st : state) : state :=
  {| ctl := f; frame_paths := frame_paths st; frame_num := frame_num st;
     fs := fs st; trace := trace st |}.

Definition with_fs (m : gmap string file) (st : state) : state :=
  {| ctl := ctl st; frame_paths := frame_paths st; frame_num := frame_num st;
     fs := m; trace := trace st |}.

Definition log (ev : event) (st : state) : state :=
  {| ctl := ctl st; frame_paths := frame_paths st; frame_num := frame_num st;
     fs := fs st; trace := trace st ++ [ev] |}.

Definition sleep (secs : Q) (st : state) : state := log (slept secs) st.

(** What the outside world answers during one pass through the loop. *)
Record tick : Type := {
  (** GUI calls that land before [while not self._stop] is evaluated *)
  calls_before_stop_test : list call;
  (** GUI calls that land between that test and [if self._pause] *)
  calls_before_pause_test : list call;
  (** the clock at [t0 = time.time()] *)
  clock_t0 : Q;
  (** [sct.grab(monitor)] *)
  grab : monitor -> result screenshot;
  (** [img.save(frame_path)]: [Some msg] when it raises *)
  save_raises : option string;
  (** the clock at [elapsed = time.time() - t0] *)
  clock_t1 : Q
}.

(** What the outside world answers outside the loop. *)
Record env : Type := {
  (** [sct = mss.mss()]: [Some msg] when it raises *)
  mss_raises : option string;
  (** [int(time.time())] when the GIF is named *)
  gif_time : Z;
  (** the encoder of [imageio.mimsave]: [Some msg] when it raises *)
  mimsave_raises : option string;
  (** an encoder that raises has by then created the file *)
  mimsave_truncates : bool;
  (** what the encoder stores in the GIF it writes for a frame list and
      an [fps] argument: the frames of the file, each with the delay the
      file declares for it, in hundredths of a second, the unit of the
      GIF format *)
  encoder : list image -> Z -> list (image * Z);
  (** [requests.post(...)] *)
  post : post_result
}.

Definition Qltb (a b : Q) : bool := negb (Qle_bool b a).

Definition frame_name (n : nat) : string := "frame_" +:+ PyStr.fmt_06d n +:+ ".png".
Definition gif_name (t : Z) : string := "recording_" +:+ PyStr.str_int t +:+ ".gif".

Definition frame_path (self : RecorderThread) (n : nat) : string :=
  PyStr.pjoin (tmpdir self) (frame_name n).

Definition monitor_of (self : RecorderThread) : monitor :=
  let '(l, t, w, h) := bbox self in
  {| m_left := l; m_top := t; m_width := w; m_height := h |}.

(** The [except Exception as e] handler of the loop. *)
Definition on_loop_error (msg : string) (st : state) : state :=
  with_ctl (stop (ctl st)) (log (progress_signal ("error: " +:+ msg)) st).

(** The grab, the save and the bookkeeping of one frame: the body of the
    loop between [t0 = time.time()] and [frame_num += 1]. *)
Definition capture_frame (self : RecorderThread) (tk : tick) (st : state) : result state :=
  let! s := grab tk (monitor_of self) in
  let img := frombytes "RGB" (shot_size s) (shot_rgb s) in
  let frame_path := frame_path self (frame_num st) in
  match save_raises tk with
  | Some msg => Raise msg
  | None =>
      Ok {| ctl := ctl st;
            frame_paths := frame_paths st ++ [frame_path];
            frame_num := frame_num st + 1;
            fs := <[frame_path := Png img]> (fs st);
            trace := trace st ++ [saved frame_path img] |}
  end.

Inductive step : Type :=
| Next (st : state)
| Break (st : state).

(** One pass through [while not self._stop: ...], exception handler
    included. *)
Definition iteration (self : RecorderThread) (frame_interval : Q)
    (tk : tick) (st : state) : step :=
  let st := with_ctl (apply_calls (calls_before_stop_test tk) (ctl st)) st in
  if _stop (ctl st) then Break st
  else
    let st := with_ctl (apply_calls (calls_before_pause_test tk) (ctl st)) st in
    if _pause (ctl st) then Next (sleep (1 # 20) st)
    else
      match capture_frame self tk st with
      | Raise msg => Break (on_loop_error msg st)
      | Ok st =>
          let elapsed := (clock_t1 tk - clock_t0 tk)%Q in
          let to_sleep := (frame_interval - elapsed)%Q in
          if Qltb 0 to_sleep then Next (sleep to_sleep st) else Next st
      end.

Inductive loop_outcome : Type :=
| Exited (st : state)
| Spinning (st : state).

(** The loop, driven by the answers of the outside world; when they run
    out before the loop has ended, the thread is still in the loop. *)
Fixpoint capture_loop (self : RecorderThread) (frame_interval : Q)
    (sched : list tick) (st : state) : loop_outcome :=
  match sched with
  | [] => Spinning st
  | tk :: rest =>
      match iteration self frame_interval tk st with
      | Break st' => Exited st'
      | Next st' => capture_loop self frame_interval rest st'
      end
  end.

(** [imageio.v2.imread(p)]. *)
Definition imread (m : gmap string file) (p : string) : result image :=
  match m !! p with
  | Some (Png img) => Ok img
  | Some (Gif (img :: _) _) => Ok img
  | _ => Raise ("No such file: " +:+ p)
  end.

Fixpoint imread_all (m : gmap string file) (ps : list string) : result (list image) :=
  match ps with
  | [] => Ok []
  | p :: rest =>
      let! img := imread m p in
      let! imgs := imread_all m rest in
      Ok (img :: imgs)
  end.

(** [imageio.mimsave(out, [imread(p) for p in paths], fps=fps)]: the
    file system it leaves and, when it raises, the message. The frames
    are read before the encoder is called; a read that raises leaves the
    files alone. An encoder that raises may have left a truncated file;
    one that returns has written the GIF of these frames at this rate. *)
Definition mimsave (e : env) (out : string) (paths : list string) (rate : Z)
    (m : gmap string file) : gmap string file * option string :=
  match imread_all m paths with
  | Raise msg => (m, Some msg)
  | Ok imgs =>
      match mimsave_raises e with
      | Some msg =>
          (if mimsave_truncates e then <[out := Truncated]> m else m, Some msg)
      | None => (<[out := Gif imgs rate]> m, None)
      end
  end.

(** What a file holds when it is read as a GIF. *)
Definition gif_contents (e : env) (f : file) : option (list (image * Z)) :=
  match f with
  | Gif frames rate => Some (encoder e frames rate)
  | _ => None
  end.

(** [shutil.rmtree(d, ignore_errors=True)]: everything inside [d] goes. *)
Definition rmtree (d : string) (m : gmap string file) : gmap string file :=
  filter (fun kv => PyStr.inside d kv.1 = false) m.

(** The loop [for p in frame_paths: os.remove(p)] with its [except: pass]:
    a file that is there is removed, a missing one is passed over. *)
Definition remove_all (ps : list string) (m : gmap string file) : gmap string file :=
  fold_left (fun acc p => delete p acc) ps m.

(** The upload stage: the value left in [url] and the state after it. *)
Definition upload (self : RecorderThread) (e : env) (out_gif : string)
    (st : state) : Py.value * state :=
  match server_url self with
  | Some (String c u) =>
      let target := String c u in
      let st := log (progress_signal "uploading") st in
      match fs st !! out_gif with
      | None => (Py.VStr "", st)
      | Some _ =>
          let st := log (posted (PyStr.rstrip_slash target +:+ "/upload")) st in
          match post e with
          | PostRaises _ => (Py.VStr "", st)
          | PostReturns r =>
              if (status_code r =? 200)%Z then
                match json r with
                | Some (Py.VDict kvs) =>
                    (Py.por (Py.dict_get kvs "url" (Py.VStr "")) (Py.VStr ""), st)
                | _ => (Py.VStr "", st)
                end
              else (Py.VStr "", st)
          end
      end
  | _ => (Py.VStr out_gif, st)
  end.

(** [out_gif = self.tmpdir / f'recording_{int(time.time())}.gif']. *)
Definition out_gif (self : RecorderThread) (e : env) : string :=
  PyStr.pjoin (tmpdir self) (gif_name (gif_time e)).

(** How [run] can end: it returns, it dies of an exception nothing
    catches, or it is still in its loop. Each time with the state it has
    reached. *)
Inductive outcome : Type :=
| Returned (st : state)
| Uncaught (st : state) (msg : string)
| InLoop (st : state).

(** [type(v).__name__]. *)
Definition type_name (v : Py.value) : string :=
  match v with
  | Py.VNone => "NoneType"
  | Py.VBool _ => "bool"
  | Py.VInt _ => "int"
  | Py.VStr _ => "str"
  | Py.VList _ => "list"
  | Py.VDict _ => "dict"
  end.

(** [self.finished_signal.emit(v)] as the last statement of [run]. The
    signal is a [pyqtSignal(str)]: it takes a [str] and raises
    [TypeError] on anything else, and nothing catches that. *)
Definition emit_finished (v : Py.value) (st : state) : outcome :=
  match v with
  | Py.VStr _ => Returned (log (finished_signal v) st)
  | _ =>
      Uncaught st ("RecorderThread.finished_signal[str].emit(): argument 1 "
                   +:+ "has unexpected type '" +:+ type_name v +:+ "'")
  end.

(** Everything [run] does once the loop is left. *)
Definition after_loop (self : RecorderThread) (e : env) (st : state) : outcome :=
  if (length (frame_paths st) =? 0)%nat then
    let st := log (progress_signal "no_frames") st in
    let st := with_fs (rmtree (tmpdir self) (fs st)) st in
    emit_finished (Py.VStr "") st
  else
    let out_gif := out_gif self e in
    let st := log (progress_signal "assembling") st in
    let '(m, raised) := mimsave e out_gif (frame_paths st) (fps self) (fs st) in
    let st := with_fs m st in
    match raised with
    | Some msg =>
        let st := log (progress_signal ("error: " +:+ msg)) st in
        emit_finished (Py.VStr "") st
    | None =>
        let '(url, st) := upload self e out_gif st in
        let st := with_fs (remove_all (frame_paths st) (fs st)) st in
        emit_finished (if Py.truthy url then url else Py.VStr out_gif) st
    end.

(** The state [run] starts from: the flags as [__init__] leaves them. *)
Definition initial (m : gmap string file) : state :=
  {| ctl := {| _pause := false; _stop := false |};
     frame_paths := []; frame_num := 0; fs := m; trace := [] |}.

(** [run] up to the end of the [try] block. *)
Definition capture (self : RecorderThread) (sched : list tick)
    (m : gmap string file) : loop_outcome :=
  capture_loop self (1 / inject_Z (fps self))%Q sched
    (log (progress_signal "recording") (initial m)).

(** [RecorderThread.run]. The two statements before the [try] are not
    protected: what they raise ends the thread. *)
Definition run (self : RecorderThread) (e : env) (sched : list tick)
    (m : gmap string file) : outcome :=
  match mss_raises e with
  | Some msg => Uncaught (initial m) msg
  | None =>
      if (fps self =? 0)%Z then Uncaught (initial m) "float division by zero"
      else
        match capture self sched m with
        | Spinning st => InLoop st
        | Exited st => after_loop self e st
        end
  end.

(** The state an outcome carries. *)
Definition outcome_state (o : outcome) : state :=
  match o with
  | Returned st | Uncaught st _ | InLoop st => st
  end.

(** ** Reading a trace *)

Definition is_error (ev : event) : bool :=
  match ev with
  | progress_signal text => String.prefix "error: " text
  | _ => false
  end.

Definition errors (tr : list event) : list event := List.filter is_error tr.

Definition saved_frame (ev : event) : option (string * image) :=
  match ev with
  | saved p img => Some (p, img)
  | _ => None
  end.

(** The frames written to the spool, in the order they were written. *)
Definition spooled (tr : list event) : list (string * image) := omap saved_frame tr.

Definition slept_secs (ev : event) : option Q :=
  match ev with
  | slept d => Some d
  | _ => None
  end.

Definition sleeps (tr : list event) : list Q := omap slept_secs tr.

(** The value the caller receives through [finished_signal]. *)
Definition final_result (tr : list event) : option Py.value :=
  last (omap (fun ev => match ev with finished_signal v => Some v | _ => None end) tr).

Definition total_sleep (tr : list event) : Q := fold_right Qplus 0%Q (sleeps tr).

(** ** Words for the statements *)

(** [run] gets as far as its loop: the screen grabber is set up and
    [1.0 / self.fps] is defined. *)
Definition starts (self : RecorderThread) (e : env) : Prop :=
  mss_raises e = None ∧ fps self ≠ 0%Z.

(** The flags as one pass through the loop reads them. *)
Definition flags_at_stop_test (tk : tick) (st : state) : flags :=
  apply_calls (calls_before_stop_test tk) (ctl st).

Definition flags_at_pause_test (tk : tick) (st : state) : flags :=
  apply_calls (calls_before_pause_test tk) (flags_at_stop_test tk st).

(** The pass gets as far as grabbing a frame. *)
Definition attempts_capture (tk : tick) (st : state) : Prop :=
  _stop (flags_at_stop_test tk st) = false ∧ _pause (flags_at_pause_test tk st) = false.

(** The grab or the save of this pass raises, with this message. *)
Definition capture_failure (self : RecorderThread) (tk : tick) : option string :=
  match grab tk (monitor_of self) with
  | Raise msg => Some msg
  | Ok _ => save_raises tk
  end.

(** No [resume()] and no [stop()] arrives during the pass. *)
Definition no_resume_no_stop (tk : tick) : Prop :=
  Forall (fun c => c = CallPause)
         (calls_before_stop_test tk ++ calls_before_pause_test tk).

(** A session is Running or Paused: there is a recorder and its loop has
    not been told to stop. *)
Definition session_active (recorder : option flags) : bool :=
  match recorder with
  | Some f => negb (_stop f)
  | None => false
  end.

(** A delivery target is configured: [if self.server_url] holds. *)
Definition configured (self : RecorderThread) : bool :=
  match server_url self with
  | Some (String _ _) => true
  | _ => false
  end.

(** The delivery attempt fails: the request raises (time-out, connection
    error) or the status is not 200. *)
Definition delivery_fails (p : post_result) : Prop :=
  match p with
  | PostRaises _ => True
  | PostReturns r => status_code r ≠ 200%Z
  end.

Definition with_post (p : post_result) (e : env) : env :=
  {| mss_raises := mss_raises e; gif_time := gif_time e;
     mimsave_raises := mimsave_raises e;
     mimsave_truncates := mimsave_truncates e; encoder := encoder e;
     post := p |}.

(** The answer to the request carries no url that the final signal
    cannot take: where the status is 200 and the body is a JSON object,
    a [url] member that counts as true is a string. *)
Definition url_is_text (e : env) : Prop :=
  ∀ r kvs v, post e = PostReturns r → status_code r = 200%Z →
    json r = Some (Py.VDict kvs) → Py.dict_find kvs "url" = Some v →
    Py.truthy v = true → ∃ u, v = Py.VStr u.

(** Every frame of a GIF is shown for the delay that makes [rate] frames
    a second. *)
Definition declares_rate (rate : Z) (g : list (image * Z)) : Prop :=
  Forall (fun fd => (rate * fd.2 = 100)%Z) g.

(** The spool as the loop keeps it: frame [i] is file [frame_path i], the
    list of paths is in sequence order, and every file still holds the
    image saved to it. *)
Record spool_inv (self : RecorderThread) (st : state) : Prop := {
  inv_num : frame_num st = length (frame_paths st);
  inv_paths : frame_paths st = frame_path self <$> seq 0 (frame_num st);
  inv_spooled : (spooled (trace st)).*1 = frame_paths st;
  inv_files : Forall (fun pi => fs st !! pi.1 = Some (Png pi.2)) (spooled (trace st))
}.

(** The state in which the upload stage starts when the frames spooled so
    far have been assembled. *)
Definition assembled (self : RecorderThread) (e : env) (st : state) : state :=
  with_fs (<[out_gif self e := Gif (spooled (trace st)).*2 (fps self)]> (fs st))
          (log (progress_signal "assembling") st).

(** The value [run] then hands to [finished_signal]:
    [url if url else str(out_gif)]. *)
Definition reference (self : RecorderThread) (e : env) (st : state) : Py.value :=
  let url := (upload self e (out_gif self e) (assembled self e st)).1 in
  if Py.truthy url then url else Py.VStr (out_gif self e).

(** ** A sample encoder *)

#[global] Instance image_eq_dec : EqDecision image.
Proof. solve_decision. Defined.

(** Frames with one delay each, a frame equal to the one before it merged
    into it. *)
Fixpoint merge_same (delay : Z) (imgs : list image) : list (image * Z) :=
  match imgs with
  | [] => []
  | img :: rest =>
      match merge_same delay rest with
      | (img', d) :: tl =>
          if decide (img = img') then (img, (delay + d)%Z) :: tl
          else (img, delay) :: (img', d) :: tl
      | [] => [(img, delay)]
      end
  end.

(** An encoder that stores every delay as a whole number of hundredths
    of a second, rounded down, and merges equal neighbours. *)
Definition centisecond_encoder (imgs : list image) (rate : Z) : list (image * Z) :=
  merge_same (100 / rate)%Z imgs.

(** ** Sample sessions *)

Module Demo.

Definition shot (k : Z) : screenshot :=
  {| shot_size := (2, 1)%Z; shot_rgb := [k; k; k; k; k; k] |}.

Definition frame (k : Z) : image := frombytes "RGB" (2, 1)%Z [k; k; k; k; k; k].

(** A pass that grabs and saves picture [k] between clock readings
    [a] and [b]. *)
Definition ok_tick (k : Z) (a b : Q) : tick :=
  {| calls_before_stop_test := []; calls_before_pause_test := [];
     clock_t0 := a; grab := fun _ => Ok (shot k);
     save_raises := None; clock_t1 := b |}.

(** A pass before which the GUI thread makes the calls [cs]. *)
Definition call_tick (cs : list call) : tick :=
  {| calls_before_stop_test := cs; calls_before_pause_test := [];
     clock_t0 := 0; grab := fun _ => Ok (shot 0);
     save_raises := None; clock_t1 := 0 |}.

(** A pass in which the grab raises. *)
Definition grab_fails_tick : tick :=
  {| calls_before_stop_test := []; calls_before_pause_test := [];
     clock_t0 := 0; grab := fun _ => Raise "XGetImage() failed";
     save_raises := None; clock_t1 := 0 |}.

Definition local_recorder : RecorderThread :=
  {| bbox := (0, 0, 640, 480)%Z; fps := 10; server_url := None;
     tmpdir := "/tmp/kolen_frames_ab12" |}.

Definition remote_recorder : RecorderThread :=
  {| bbox := (0, 0, 640, 480)%Z; fps := 10; server_url := Some "http://store/";
     tmpdir := "/tmp/kolen_frames_ab12" |}.

Definition answer (status : Z) (body : list (string * Py.value)) : env :=
  {| mss_raises := None; gif_time := 1700000000; mimsave_raises := None;
     mimsave_truncates := false; encoder := centisecond_encoder;
     post := PostReturns {| status_code := status; json := Some (Py.VDict body) |} |}.

Definition timed_out : env :=
  {| mss_raises := None; gif_time := 1700000000; mimsave_raises := None;
     mimsave_truncates := false; encoder := centisecond_encoder;
     post := PostRaises "Read timed out. (read timeout=30)" |}.

Definition frame0 : string := "/tmp/kolen_frames_ab12/frame_000000.png".
Definition frame1 : string := "/tmp/kolen_frames_ab12/frame_000001.png".
Definition gif : string := "/tmp/kolen_frames_ab12/recording_1700000000.gif".

(** Two frames, the second one late, then [stop()]. *)
Definition two_frames : list tick :=
  [ok_tick 1 0 (1 # 100); ok_tick 2 (1 # 10) (3 # 10); call_tick [CallStop]].

(** One frame, then the grab breaks. *)
Definition one_frame_then_failure : list tick :=
  [ok_tick 1 0 (1 # 100); grab_fails_tick; ok_tick 2 (1 # 10) (3 # 10)].

(** The state a run is in after [n] frames and a [pause()]. *)
Definition paused_state : state :=
  {| ctl := {| _pause := true; _stop := false |};
     frame_paths := [frame0]; frame_num := 1;
     fs := {[ frame0 := Png (frame 1) ]};
     trace := [progress_signal "recording"; saved frame0 (frame 1)] |}.

Definition exit_of (o : loop_outcome) : state :=
  match o with
  | Exited st | Spinning st => st
  end.

(** The states in which the sample sessions leave the loop. *)
Definition two_frames_exit : state :=
  Eval vm_compute in exit_of (capture local_recorder two_frames ∅).

Definition two_frames_remote_exit : state :=
  Eval vm_compute in exit_of (capture remote_recorder two_frames ∅).

Definition stopped_at_once_exit : state :=
  Eval vm_compute in exit_of (capture local_recorder [call_tick [CallStop]] ∅).

(** The state after the first pass of [one_frame_then_failure]. *)
Definition one_frame_state : state :=
  Eval vm_compute in exit_of (capture local_recorder [ok_tick 1 0 (1 # 100)] ∅).

(** The state in which [run] enters the loop. *)
Definition start_state : state := log (progress_signal "recording") (initial ∅).

(** Three quiet passes, a repeated [pause()] among them. *)
Definition pause_window : list tick :=
  [call_tick []; call_tick [CallPause]; call_tick []].

End Demo.

(** ** More words for reading a run *)

(** The state a loop outcome carries, ended or not. *)
Definition loop_state (o : loop_outcome) : state :=
  match o with
  | Exited st | Spinning st => st
  end.

Definition posted_url (ev : event) : option string :=
  match ev with
  | posted u => Some u
  | _ => None
  end.

(** The requests sent, in order. *)
Definition posts (tr : list event) : list string := omap posted_url tr.

Definition finished_value (ev : event) : option Py.value :=
  match ev with
  | finished_signal v => Some v
  | _ => None
  end.

(** The values sent through [finished_signal], in order. *)
Definition finished_values (tr : list event) : list Py.value := omap finished_value tr.

(** What the loop may add to the trace: saves, sleeps whose length
    satisfies [P], and error reports. *)
Definition loop_event (P : Q -> Prop) (ev : event) : Prop :=
  match ev with
  | saved _ _ => True
  | slept d => P d
  | progress_signal text => String.prefix "error: " text = true
  | _ => False
  end.

Fixpoint ends_with_slash (s : string) : bool :=
  match s with
  | EmptyString => false
  | String c r =>
      match r with
      | EmptyString => Ascii.eqb c "/"%char
      | String _ _ => ends_with_slash r
      end
  end.

Fixpoint slashes (k : nat) : string :=
  match k with
  | O => EmptyString
  | S k' => String "/"%char (slashes k')
  end.

(** ** More sample sessions *)

Module Samples.

(** The encoder gives up. *)
Definition encoder_fails : env :=
  {| mss_raises := None; gif_time := 1700000000;
     mimsave_raises := Some "No space left on device";
     mimsave_truncates := true; encoder := centisecond_encoder;
     post := PostRaises "never sent" |}.

(** A server address typed with trailing slashes. *)
Definition slashed_recorder : RecorderThread :=
  {| bbox := (0, 0, 640, 480)%Z; fps := 10; server_url := Some "http://store//";
     tmpdir := "/tmp/kolen_frames_ab12" |}.

Definition slashed_exit : state :=
  Eval vm_compute in loop_state (capture slashed_recorder Demo.two_frames ∅).

(** A recorder at the window's default frame rate. *)
Definition default_recorder : RecorderThread :=
  {| bbox := (0, 0, 640, 480)%Z; fps := 12; server_url := None;
     tmpdir := "/tmp/kolen_frames_ab12" |}.

(** Three frames, the first two of them alike, then [stop()]. *)
Definition three_frames : list tick :=
  [Demo.ok_tick 1 0 (1 # 100); Demo.ok_tick 1 (1 # 12) (1 # 10);
   Demo.ok_tick 2 (1 # 6) (1 # 5); Demo.call_tick [CallStop]].

(** The state in which that session ends. *)
Definition three_frames_end : state :=
  Eval vm_compute in
    outcome_state (run default_recorder Demo.timed_out three_frames ∅).

(** A store that answers 200 with a number for a url, and the state in
    which the session with it ends. *)
Definition numeric_url : env := Demo.answer 200 [("url", Py.VInt 123)].

Definition numeric_url_end : state :=
  Eval vm_compute in
    outcome_state (run Demo.remote_recorder numeric_url Demo.two_frames ∅).

(** The states in which three more sample sessions end: a delivery that
    times out, a grab that breaks after one frame, and a store that
    answers 201. *)
Definition timed_out_end : state :=
  Eval vm_compute in
    outcome_state (run Demo.remote_recorder Demo.timed_out Demo.two_frames ∅).

Definition grab_failure_end : state :=
  Eval vm_compute in
    outcome_state (run Demo.local_recorder Demo.timed_out Demo.one_frame_then_failure ∅).

Definition created_201_end : state :=
  Eval vm_compute in
    outcome_state (run Demo.remote_recorder
                     (Demo.answer 201 [("url", Py.VStr "http://store/x.gif")])
                     Demo.two_frames ∅).

(** A thread that has been told to stop. *)
Definition stopped_state : state :=
  {| ctl := {| _pause := true; _stop := true |};
     frame_paths := [Demo.frame0]; frame_num := 1;
     fs := {[ Demo.frame0 := Png (Demo.frame 1) ]};
     trace := [progress_signal "recording"; saved Demo.frame0 (Demo.frame 1)] |}.

End Samples.

(** ** The upload server ([create_server]) *)

Module Server.

(** One entry of [meta.json]. *)
Record item : Type := {
  item_id : string;
  item_name : string;
  item_filename : string;
  item_time : string;
  item_url : string
}.

(** What the server keeps under its storage directory: the files in
    [uploads/], the list in [meta.json] and the names in [ads/]. *)
Record storage : Type := {
  uploads : gmap string file;
  meta : list item;
  ads : list string
}.

(** A part of a multipart request, as [request.files] hands it over. *)
Record FileStorage : Type := {
  part_filename : string;
  part_stream : file
}.

Record upload_request : Type := {
  (** [request.files.get('file')] *)
  files_file : option FileStorage;
  (** [request.host_url] *)
  host_url : string
}.

(** What the outside world answers during one request. *)
Record world : Type := {
  (** [str(uuid.uuid4())] *)
  uuid4 : string;
  (** [time.strftime('%Y-%m-%d %H:%M:%S')] *)
  strftime : string;
  (** [f.save(out)]: [Some msg] when it raises *)
  save_raises : option string;
  (** [read_meta()] and [write_meta(meta)]: [Some msg] when one raises *)
  meta_raises : option string
}.

Inductive reply : Type :=
| Json (status : Z) (body : list (string * Py.value))
| Unhandled (msg : string).

Definition empty : storage := {| uploads := ∅; meta := []; ads := [] |}.

Section Handlers.

(** [Path(name).suffix], left to the library. *)
Variable suffix : string -> string.

(** The handler of [POST /upload]. A [FileStorage] is false when its
    filename is empty. *)
Definition upload (w : world) (rq : upload_request) (st : storage) : reply * storage :=
  match files_file rq with
  | None => (Json 400 [("error", Py.VStr "no file")], st)
  | Some f =>
      if String.eqb (part_filename f) "" then
        (Json 400 [("error", Py.VStr "no file")], st)
      else
        let ext := suffix (part_filename f) in
        let uid := uuid4 w in
        let filename := uid +:+ ext in
        match save_raises w with
        | Some msg => (Unhandled msg, st)
        | None =>
            let st := {| uploads := <[filename := part_stream f]> (uploads st);
                         meta := meta st; ads := ads st |} in
            match meta_raises w with
            | Some msg => (Unhandled msg, st)
            | None =>
                let item := {| item_id := uid; item_name := part_filename f;
                               item_filename := filename; item_time := strftime w;
                               item_url := "/uploads/" +:+ filename |} in
                let st := {| uploads := uploads st; meta := meta st ++ [item];
                             ads := ads st |} in
                let base_url := PyStr.rstrip_slash (host_url rq) in
                (Json 200 [("url", Py.VStr (base_url +:+ item_url item))], st)
            end
        end
  end.

(** The handler of [GET /uploads/<filename>] for a plain file name:
    the file, or [None] for 404. *)
Definition uploaded_file (filename : string) (st : storage) : option file :=
  uploads st !! filename.

(** What [index] and [gallery] hand to the page template: the items,
    newest first, and the ads. *)
Definition index (st : storage) : list item * list string :=
  (rev (meta st), ads st).

(** A run of upload requests. *)
Fixpoint serve (rqs : list (world * upload_request)) (st : storage) : storage :=
  match rqs with
  | [] => st
  | (w, rq) :: rest => serve rest (upload w rq st).2
  end.

End Handlers.

(** Every entry of [meta.json] names a stored file through its url. *)
Definition linked (st : storage) : Prop :=
  Forall (fun it => item_url it = "/uploads/" +:+ item_filename it ∧
                    is_Some (uploaded_file (item_filename it) st))
         (meta st).

(** The reply as [requests] shows it to the recorder: an unhandled
    exception is a 500 page, whose body is no JSON. *)
Definition as_post_result (r : reply) : post_result :=
  match r with
  | Json status body =>
      PostReturns {| status_code := status; json := Some (Py.VDict body) |}
  | Unhandled _ => PostReturns {| status_code := 500; json := None |}
  end.

End Server.

Module ServerSamples.

Definition dot_gif (name : string) : string := ".gif".

Definition quiet : Server.world :=
  {| Server.uuid4 := "3f2b"; Server.strftime := "2023-11-14 22:13:20";
     Server.save_raises := None; Server.meta_raises := None |}.

Definition the_gif : file := Gif [Demo.frame 1; Demo.frame 2] 10.

Definition gif_request : Server.upload_request :=
  {| Server.files_file :=
       Some {| Server.part_filename := "recording_1700000000.gif";
               Server.part_stream := the_gif |};
     Server.host_url := "http://store/" |}.


(** The world of a recorder whose request [rq] this server answers. *)
Definition served (rq : Server.upload_request) : env :=
  {| mss_raises := None; gif_time := 1700000000; mimsave_raises := None;
     mimsave_truncates := false; encoder := centisecond_encoder;
     post := Server.as_post_result (Server.upload dot_gif quiet rq Server.empty).1 |}.

End ServerSamples.

(** ** The main window ([MainWindow]) and its buttons *)

Module Gui.

Record QRect : Type := { qx : Z; qy : Z; qwidth : Z; qheight : Z }.

(** The entries of the FPS combo box, which is not editable. *)
Inductive fps_choice : Type := Fps5 | Fps10 | Fps12 | Fps15 | Fps20 | Fps24 | Fps30.

(** [int(self.fps_combo.currentText())]. *)
Definition fps_value (c : fps_choice) : Z :=
  match c with
  | Fps5 => 5 | Fps10 => 10 | Fps12 => 12 | Fps15 => 15
  | Fps20 => 20 | Fps24 => 24 | Fps30 => 30
  end%Z.

(** The recorder object the window holds: what [__init__] fixed, the two
    flags, and [isRunning()]. *)
Record handle : Type := {
  thread : RecorderThread;
  thread_ctl : flags;
  isRunning : bool
}.

(** The window: the attributes the handlers read and write; for a button
    the field is [isEnabled()]. *)
Record window : Type := {
  selected_rect : option QRect;
  indicator : option QRect;
  recorder : option handle;
  start_btn : bool;
  pause_btn : bool;
  stop_btn : bool;
  select_area_btn : bool;
  pause_btn_text : string;
  status : string;
  fps_combo : fps_choice;
  server_edit : string;
  clipboard : option string;
  opened : list string
}.

Definition set_status (text : string) (w : window) : window :=
  {| selected_rect := selected_rect w;
     indicator := indicator w;
     recorder := recorder w;
     start_btn := start_btn w;
     pause_btn := pause_btn w;
     stop_btn := stop_btn w;
     select_area_btn := select_area_btn w;
     pause_btn_text := pause_btn_text w;
     status := text;
     fps_combo := fps_combo w;
     server_edit := server_edit w;
     clipboard := clipboard w;
     opened := opened w |}.

Definition set_recorder (r : option handle) (w : window) : window :=
  {| selected_rect := selected_rect w;
     indicator := indicator w;
     recorder := r;
     start_btn := start_btn w;
     pause_btn := pause_btn w;
     stop_btn := stop_btn w;
     select_area_btn := select_area_btn w;
     pause_btn_text := pause_btn_text w;
     status := status w;
     fps_combo := fps_combo w;
     server_edit := server_edit w;
     clipboard := clipboard w;
     opened := opened w |}.

Definition set_selection (r : QRect) (w : window) : window :=
  {| selected_rect := Some r;
     indicator := Some r;
     recorder := recorder w;
     start_btn := start_btn w;
     pause_btn := pause_btn w;
     stop_btn := stop_btn w;
     select_area_btn := select_area_btn w;
     pause_btn_text := pause_btn_text w;
     status := status w;
     fps_combo := fps_combo w;
     server_edit := server_edit w;
     clipboard := clipboard w;
     opened := opened w |}.

Definition set_buttons (start pause stop select : bool) (w : window) : window :=
  {| selected_rect := selected_rect w;
     indicator := indicator w;
     recorder := recorder w;
     start_btn := start;
     pause_btn := pause;
     stop_btn := stop;
     select_area_btn := select;
     pause_btn_text := pause_btn_text w;
     status := status w;
     fps_combo := fps_combo w;
     server_edit := server_edit w;
     clipboard := clipboard w;
     opened := opened w |}.

Definition set_pause_text (text : string) (w : window) : window :=
  {| selected_rect := selected_rect w;
     indicator := indicator w;
     recorder := recorder w;
     start_btn := start_btn w;
     pause_btn := pause_btn w;
     stop_btn := stop_btn w;
     select_area_btn := select_area_btn w;
     pause_btn_text := text;
     status := status w;
     fps_combo := fps_combo w;
     server_edit := server_edit w;
     clipboard := clipboard w;
     opened := opened w |}.

Definition set_server_edit (text : string) (w : window) : window :=
  {| selected_rect := selected_rect w;
     indicator := indicator w;
     recorder := recorder w;
     start_btn := start_btn w;
     pause_btn := pause_btn w;
     stop_btn := stop_btn w;
     select_area_btn := select_area_btn w;
     pause_btn_text := pause_btn_text w;
     status := status w;
     fps_combo := fps_combo w;
     server_edit := text;
     clipboard := clipboard w;
     opened := opened w |}.

Definition set_fps_combo (c : fps_choice) (w : window) : window :=
  {| selected_rect := selected_rect w;
     indicator := indicator w;
     recorder := recorder w;
     start_btn := start_btn w;
     pause_btn := pause_btn w;
     stop_btn := stop_btn w;
     select_area_btn := select_area_btn w;
     pause_btn_text := pause_btn_text w;
     status := status w;
     fps_combo := c;
     server_edit := server_edit w;
     clipboard := clipboard w;
     opened := opened w |}.

Definition copy_and_open (url : string) (w : window) : window :=
  {| selected_rect := selected_rect w;
     indicator := indicator w;
     recorder := recorder w;
     start_btn := start_btn w;
     pause_btn := pause_btn w;
     stop_btn := stop_btn w;
     select_area_btn := select_area_btn w;
     pause_btn_text := pause_btn_text w;
     status := status w;
     fps_combo := fps_combo w;
     server_edit := server_edit w;
     clipboard := Some url;
     opened := opened w ++ [url] |}.

(** The window as [__init__] leaves it, with the server address [main]
    puts into the edit field. *)
Definition initial (server : string) : window :=
  {| selected_rect := None; indicator := None; recorder := None;
     start_btn := true; pause_btn := false; stop_btn := false;
     select_area_btn := true;
     pause_btn_text := "Pause"; status := "Ready"; fps_combo := Fps12;
     server_edit := server; clipboard := None; opened := [] |}.

Definition with_thread_ctl (f : flags) (h : handle) : handle :=
  {| thread := thread h; thread_ctl := f; isRunning := isRunning h |}.

(** [s.startswith('http://') or s.startswith('https://')]. *)
Definition looks_like_url (s : string) : bool :=
  String.prefix "http://" s || String.prefix "https://" s.

Section Handlers.

(** The truth value of a [QRect] and [str.strip], left to the libraries. *)
Variable rect_bool : QRect -> bool.
Variable strip : string -> string.

(** [on_select_area]; [sel] is what [ScreenshotSelector.get_selection]
    returns or raises. *)
Definition on_select_area (sel : result (option QRect)) (w : window) : window :=
  let w := set_status "Capturing screen for selection..." w in
  match sel with
  | Raise _ => w
  | Ok None => set_status "Selection cancelled" w
  | Ok (Some rect) =>
      if rect_bool rect then
        set_status ("Selected area: " +:+ PyStr.str_int (qx rect) +:+ ","
                    +:+ PyStr.str_int (qy rect) +:+ " "
                    +:+ PyStr.str_int (qwidth rect) +:+ "x"
                    +:+ PyStr.str_int (qheight rect))
          (set_selection rect w)
      else set_status "Selection cancelled" w
  end.

(** [on_start]; [tmp] is the directory [tempfile.mkdtemp] makes for the
    new recorder. *)
Definition on_start (tmp : string) (w : window) : window :=
  match selected_rect w with
  | None => set_status "Please select an area first" w
  | Some rect =>
      if negb (rect_bool rect) then set_status "Please select an area first" w
      else if match recorder w with
              | Some h => isRunning h
              | None => false
              end
      then set_status "Already recording" w
      else
        let bbox := (qx rect, qy rect, qwidth rect, qheight rect) in
        let fps := fps_value (fps_combo w) in
        let server_url :=
          match strip (server_edit w) with
          | EmptyString => None
          | String c u => Some (String c u)
          end in
        let h := {| thread := {| bbox := bbox; fps := fps;
                                 server_url := server_url; tmpdir := tmp |};
                    thread_ctl := {| _pause := false; _stop := false |};
                    isRunning := true |} in
        set_status "Recording..."
          (set_buttons false true true false (set_recorder (Some h) w))
  end.

(** [on_pause]. *)
Definition on_pause (w : window) : window :=
  match recorder w with
  | None => w
  | Some h =>
      if negb (_pause (thread_ctl h)) then
        set_status "Paused"
          (set_pause_text "Resume"
             (set_recorder (Some (with_thread_ctl (pause (thread_ctl h)) h)) w))
      else
        set_status "Recording..."
          (set_pause_text "Pause"
             (set_recorder (Some (with_thread_ctl (resume (thread_ctl h)) h)) w))
  end.

(** [on_stop]. *)
Definition on_stop (w : window) : window :=
  match recorder w with
  | None => w
  | Some h =>
      set_buttons (start_btn w) false false (select_area_btn w)
        (set_status "Stopping — assembling GIF..."
           (set_recorder (Some (with_thread_ctl (stop (thread_ctl h)) h)) w))
  end.

(** [on_record_progress]. *)
Definition on_record_progress (text : string) (w : window) : window :=
  set_status text w.

(** [on_record_finished]. *)
Definition on_record_finished (path_or_url : string) (w : window) : window :=
  let w :=
    if looks_like_url path_or_url then
      set_status "Uploaded. URL copied and opened in browser"
        (copy_and_open path_or_url w)
    else set_status ("Saved locally: " +:+ path_or_url) w in
  set_buttons true false false true (set_pause_text "Pause" w).

(** [on_screenshot], as far as the window goes: of the attributes kept
    here it writes the status line and, after an upload that was answered
    with status 200, the clipboard and the browser. Which text it shows
    and which url it copies depends on the grab, the file system and the
    server; every choice is allowed here, which only adds behaviours. *)
Definition on_screenshot (text : string) (copied : option string) (w : window) : window :=
  match copied with
  | Some url => set_status text (copy_and_open url w)
  | None => set_status text w
  end.

(** What can happen to the window: clicks, which only reach the handler
    of an enabled button; edits of the two input fields; the signals of
    the recorder; and what the recorder's thread does to the object the
    window holds (the stop flag set by the loop's exception handler, the
    end of [run]). *)
Inductive happening : Type :=
| ClickSelectArea (sel : result (option QRect))
| ClickStart (tmp : string)
| ClickPause
| ClickStop
| ClickScreenshot (text : string) (copied : option string)
| EditServer (text : string)
| ChooseFps (c : fps_choice)
| Progress (text : string)
| Finished (path_or_url : string)
| ThreadSetsStop
| ThreadExits.

Definition deliver (ev : happening) (w : window) : option window :=
  match ev with
  | ClickSelectArea sel =>
      if select_area_btn w then Some (on_select_area sel w) else None
  | ClickStart tmp => if start_btn w then Some (on_start tmp w) else None
  | ClickPause => if pause_btn w then Some (on_pause w) else None
  | ClickStop => if stop_btn w then Some (on_stop w) else None
  | ClickScreenshot text copied => Some (on_screenshot text copied w)
  | EditServer text => Some (set_server_edit text w)
  | ChooseFps c => Some (set_fps_combo c w)
  | Progress text =>
      match recorder w with
      | Some _ => Some (on_record_progress text w)
      | None => None
      end
  | Finished s =>
      match recorder w with
      | Some _ => Some (on_record_finished s w)
      | None => None
      end
  | ThreadSetsStop =>
      match recorder w with
      | Some h =>
          if isRunning h
          then Some (set_recorder (Some (with_thread_ctl (stop (thread_ctl h)) h)) w)
          else None
      | None => None
      end
  | ThreadExits =>
      match recorder w with
      | Some h =>
          if isRunning h
          then Some (set_recorder
                       (Some {| thread := thread h; thread_ctl := thread_ctl h;
                                isRunning := false |}) w)
          else None
      | None => None
      end
  end.

(** The calls a happening makes on the recorder [h] the window holds. *)
Definition calls_of (ev : happening) (h : handle) : list call :=
  match ev with
  | ClickPause => if _pause (thread_ctl h) then [CallResume] else [CallPause]
  | ClickStop => [CallStop]
  | _ => []
  end.

Fixpoint play (evs : list happening) (w : window) : option window :=
  match evs with
  | [] => Some w
  | ev :: rest =>
      match deliver ev w with
      | Some w' => play rest w'
      | None => None
      end
  end.

(** What holds of the window whatever happens to it. *)
Record consistent (w : window) : Prop := {
  pause_with_stop : pause_btn w = stop_btn w;
  select_with_start : select_area_btn w = start_btn w;
  start_or_stop : start_btn w && stop_btn w = false;
  stop_has_recorder : stop_btn w = true → is_Some (recorder w);
  start_shows_pause : start_btn w = true → pause_btn_text w = "Pause";
  label_tells : ∀ h, recorder w = Some h → pause_btn w = true →
                     pause_btn_text w = if _pause (thread_ctl h) then "Resume" else "Pause";
  selection_true : ∀ r, selected_rect w = Some r → rect_bool r = true;
  fps_offered : ∀ h, recorder w = Some h →
                     fps (thread h) ∈ [5; 10; 12; 15; 20; 24; 30]%Z ∧
                     server_url (thread h) ≠ Some ""
}.

End Handlers.

End Gui.

Module GuiSamples.

Definition any_rect (r : Gui.QRect) : bool := true.
Definition no_strip (s : string) : string := s.

Definition area : Gui.QRect :=
  {| Gui.qx := 0; Gui.qy := 0; Gui.qwidth := 640; Gui.qheight := 480 |}.

(** Select an area, start, pause, and the thread is still at work. *)
Definition busy : list Gui.happening :=
  [Gui.ClickSelectArea (Ok (Some area)); Gui.ClickStart "/tmp/kolen_frames_ab12";
   Gui.ClickPause].

Definition busy_window : Gui.window :=
  Eval vm_compute in
    default (Gui.initial "http://localhost:5000")
            (Gui.play any_rect no_strip busy (Gui.initial "http://localhost:5000")).

(** The recorder that window holds. *)
Definition busy_handle : Gui.handle :=
  {| Gui.thread := {| bbox := (0, 0, 640, 480)%Z; fps := 12;
                      server_url := Some "http://localhost:5000";
                      tmpdir := "/tmp/kolen_frames_ab12" |};
     Gui.thread_ctl := {| _pause := true; _stop := false |};
     Gui.isRunning := true |}.

(** Stop, the final signal, and a hasty click on Start while the thread
    has not ended yet. *)
Definition hasty : list Gui.happening :=
  [Gui.ClickStop; Gui.Finished ""; Gui.ClickStart "/tmp/kolen_frames_cd34"].

Definition hasty_window : Gui.window :=
  Eval vm_compute in
    default busy_window (Gui.play any_rect no_strip hasty busy_window).

End GuiSamples.

(** * Facts *)

(** ** File names *)

Section PathFacts.

Lemma string_length_app (s t : string) :
  String.length (s +:+ t) = String.length s + String.length t.
Proof. induction s as [|c s IH]; simpl; [done | by rewrite IH]. Qed.

Lemma string_app_inj_r (s1 s2 t : string) : s1 +:+ t = s2 +:+ t → s1 = s2.
Proof.
  revert s2. induction s1 as [|c s1 IH]; intros [|d s2] H; simpl in H.
  - done.
  - apply (f_equal String.length) in H.
    rewrite !string_length_app in H. simpl in H. lia.
  - apply (f_equal String.length) in H.
    rewrite !string_length_app in H. simpl in H. lia.
  - injection H as -> H. f_equal. by apply IH.
Qed.

Lemma uint_of_zeros (k : nat) (s : string) :
  Nat.of_uint <$> NilEmpty.uint_of_string (PyStr.zeros k +:+ s)
  = Nat.of_uint <$> NilEmpty.uint_of_string s.
Proof.
  induction k as [|k IH]; [done |].
  simpl. rewrite <- IH.
  by destruct (NilEmpty.uint_of_string (PyStr.zeros k +:+ s)).
Qed.

(** The six-digit field reads back as the number it was printed from. *)
Lemma digits_value_fmt_06d (n : nat) : PyStr.digits_value (PyStr.fmt_06d n) = Some n.
Proof.
  unfold PyStr.digits_value, PyStr.fmt_06d, PyStr.zfill, PyStr.str_nat.
  rewrite uint_of_zeros, NilEmpty.usu. simpl. f_equal. apply Unsigned.of_to.
Qed.

Lemma fmt_06d_inj (n m : nat) : PyStr.fmt_06d n = PyStr.fmt_06d m → n = m.
Proof.
  intros H. apply (f_equal PyStr.digits_value) in H.
  rewrite !digits_value_fmt_06d in H. congruence.
Qed.

Lemma frame_name_inj (n m : nat) : frame_name n = frame_name m → n = m.
Proof.
  unfold frame_name. intros H. apply String.app_inj in H.
  apply string_app_inj_r in H. by apply fmt_06d_inj.
Qed.

(** Two sequence numbers never share a spool file. *)
Lemma frame_path_inj (self : RecorderThread) (n m : nat) :
  frame_path self n = frame_path self m → n = m.
Proof.
  unfold frame_path, PyStr.pjoin. intros H.
  do 2 apply String.app_inj in H. by apply frame_name_inj.
Qed.

(** The GIF never takes the place of a frame. *)
Lemma frame_path_not_gif (self : RecorderThread) (n : nat) (t : Z) :
  frame_path self n ≠ PyStr.pjoin (tmpdir self) (gif_name t).
Proof.
  unfold frame_path, PyStr.pjoin, frame_name, gif_name. intros H.
  do 2 apply String.app_inj in H. simpl in H. discriminate H.
Qed.

Lemma prefix_app (d s : string) : String.prefix d (d +:+ s) = true.
Proof.
  induction d as [|c d IH]; simpl; [by destruct s |].
  by destruct (ascii_dec c c).
Qed.

Lemma string_app_cons (c : ascii) (s t : string) :
  String c s +:+ t = String c (s +:+ t).
Proof. reflexivity. Qed.

Lemma string_app_assoc (s t u : string) : (s +:+ t) +:+ u = s +:+ t +:+ u.
Proof.
  induction s as [|c s IH]; [done |].
  by rewrite !string_app_cons, IH.
Qed.

Lemma inside_pjoin (d name : string) : PyStr.inside d (PyStr.pjoin d name) = true.
Proof.
  unfold PyStr.inside, PyStr.pjoin.
  rewrite <- string_app_assoc. apply prefix_app.
Qed.

End PathFacts.

(** ** The trace *)

Section TraceFacts.

Lemma spooled_snoc (tr : list event) (ev : event) :
  spooled (tr ++ [ev]) = spooled tr ++ option_list (saved_frame ev).
Proof.
  unfold spooled. rewrite omap_app. simpl. by destruct (saved_frame ev).
Qed.

Lemma sleeps_snoc (tr : list event) (ev : event) :
  sleeps (tr ++ [ev]) = sleeps tr ++ option_list (slept_secs ev).
Proof.
  unfold sleeps. rewrite omap_app. simpl. by destruct (slept_secs ev).
Qed.

Lemma errors_snoc (tr : list event) (ev : event) :
  errors (tr ++ [ev]) = errors tr ++ (if is_error ev then [ev] else []).
Proof. unfold errors. by rewrite List.filter_app. Qed.

Lemma final_result_finished (tr : list event) (v : Py.value) :
  final_result (tr ++ [finished_signal v]) = Some v.
Proof. unfold final_result. rewrite omap_app. simpl. apply last_snoc. Qed.

Lemma is_error_error (msg : string) :
  is_error (progress_signal ("error: " +:+ msg)) = true.
Proof. apply (prefix_app "error: " msg). Qed.

Lemma total_sleep_snoc (tr : list event) (d : Q) :
  (total_sleep (tr ++ [slept d]) == total_sleep tr + d)%Q.
Proof.
  unfold total_sleep. rewrite sleeps_snoc. simpl.
  induction (sleeps tr) as [|x l IH]; simpl; [ring |].
  rewrite IH. ring.
Qed.

End TraceFacts.

(** ** The capture loop *)

Section LoopFacts.

Variable self : RecorderThread.
Variable frame_interval : Q.

Lemma Qltb_lt (a b : Q) : Qltb a b = true ↔ (a < b)%Q.
Proof.
  unfold Qltb. rewrite negb_true_iff.
  destruct (Qle_bool b a) eqn:E.
  - apply Qle_bool_iff in E. split; [done |].
    intros H. by apply Qlt_not_le in H.
  - split; [intros _ | done]. apply Qnot_le_lt. intros H.
    apply Qle_bool_iff in H. congruence.
Qed.

Lemma Qltb_ge (a b : Q) : Qltb a b = false ↔ (b <= a)%Q.
Proof.
  unfold Qltb. rewrite negb_false_iff. apply Qle_bool_iff.
Qed.

(** A successful [capture_frame], spelled out. *)
Lemma capture_frame_ok (tk : tick) (st st' : state) :
  capture_frame self tk st = Ok st' →
  ∃ s, grab tk (monitor_of self) = Ok s ∧ save_raises tk = None ∧
    let img := frombytes "RGB" (shot_size s) (shot_rgb s) in
    let p := frame_path self (frame_num st) in
    st' = {| ctl := ctl st;
             frame_paths := frame_paths st ++ [p];
             frame_num := frame_num st + 1;
             fs := <[p := Png img]> (fs st);
             trace := trace st ++ [saved p img] |}.
Proof.
  unfold capture_frame, rbind.
  destruct (grab tk (monitor_of self)) as [s|msg]; [|done].
  destruct (save_raises tk) as [msg|]; [done |].
  intros [= <-]. by exists s.
Qed.

Lemma capture_frame_raise (tk : tick) (st : state) (msg : string) :
  capture_frame self tk st = Raise msg ↔ capture_failure self tk = Some msg.
Proof.
  unfold capture_frame, capture_failure, rbind.
  destruct (grab tk (monitor_of self)) as [s|m].
  - destruct (save_raises tk); split; congruence.
  - split; congruence.
Qed.

(** States that differ only in flags and in events that are not saves
    have the same spool. *)
Lemma spool_inv_same (st st' : state) :
  frame_paths st' = frame_paths st → frame_num st' = frame_num st →
  fs st' = fs st → spooled (trace st') = spooled (trace st) →
  spool_inv self st → spool_inv self st'.
Proof.
  intros Hp Hn Hf Ht [I1 I2 I3 I4].
  split; rewrite ?Hp, ?Hn, ?Hf, ?Ht; done.
Qed.

Lemma spool_inv_capture (tk : tick) (st st' : state) :
  spool_inv self st → capture_frame self tk st = Ok st' → spool_inv self st'.
Proof.
  intros [I1 I2 I3 I4] H.
  apply capture_frame_ok in H as (s & _ & _ & ->). simpl.
  split; simpl.
  - rewrite length_app. simpl. lia.
  - rewrite Nat.add_1_r, seq_S, fmap_app. simpl. by rewrite <- I2.
  - rewrite spooled_snoc. simpl. rewrite fmap_app. simpl. by rewrite I3.
  - rewrite spooled_snoc. simpl. apply Forall_app. split.
    + apply Forall_forall. intros [p img] Hin.
      rewrite Forall_forall in I4. specialize (I4 _ Hin). simpl in *.
      rewrite lookup_insert_ne; [done |].
      intros Heq.
      assert (p ∈ frame_path self <$> seq 0 (frame_num st)) as Hp.
      { rewrite <- I2, <- I3. apply list_elem_of_fmap. by exists (p, img). }
      apply list_elem_of_fmap in Hp as (i & -> & Hi).
      apply elem_of_seq in Hi.
      apply frame_path_inj in Heq. lia.
    + apply Forall_singleton. simpl. apply lookup_insert_eq.
Qed.

Lemma spool_inv_iteration (tk : tick) (st : state) :
  spool_inv self st →
  match iteration self frame_interval tk st with
  | Next st' | Break st' => spool_inv self st'
  end.
Proof.
  intros I. unfold iteration.
  set (st1 := with_ctl _ st).
  assert (spool_inv self st1) as I1 by (by apply (spool_inv_same st)).
  destruct (_stop (ctl st1)); [done |].
  set (st2 := with_ctl _ st1).
  assert (spool_inv self st2) as I2 by (by apply (spool_inv_same st1)).
  destruct (_pause (ctl st2)).
  { apply (spool_inv_same st2); try done.
    simpl. by rewrite spooled_snoc, app_nil_r. }
  destruct (capture_frame self tk st2) as [st3|msg] eqn:E.
  - pose proof (spool_inv_capture _ _ _ I2 E) as I3.
    destruct (Qltb 0 _); [|done].
    apply (spool_inv_same st3); try done.
    simpl. by rewrite spooled_snoc, app_nil_r.
  - apply (spool_inv_same st2); try done.
    simpl. by rewrite spooled_snoc, app_nil_r.
Qed.

Lemma spool_inv_loop (sched : list tick) (st : state) :
  spool_inv self st →
  match capture_loop self frame_interval sched st with
  | Exited st' | Spinning st' => spool_inv self st'
  end.
Proof.
  revert st. induction sched as [|tk rest IH]; intros st I; simpl; [done |].
  pose proof (spool_inv_iteration tk st I) as H.
  destruct (iteration self frame_interval tk st) as [st'|st']; [by apply IH | done].
Qed.

(** The loop is only ever left with the stop flag set. *)
Lemma break_stopped (tk : tick) (st st' : state) :
  iteration self frame_interval tk st = Break st' → _stop (ctl st') = true.
Proof.
  unfold iteration.
  set (st1 := with_ctl _ st).
  destruct (_stop (ctl st1)) eqn:E1; [by intros [= <-] |].
  set (st2 := with_ctl _ st1).
  destruct (_pause (ctl st2)); [done |].
  destruct (capture_frame self tk st2) as [st3|msg].
  - by destruct (Qltb 0 _).
  - by intros [= <-].
Qed.

Lemma exited_stopped (sched : list tick) (st st' : state) :
  capture_loop self frame_interval sched st = Exited st' → _stop (ctl st') = true.
Proof.
  revert st. induction sched as [|tk rest IH]; intros st; simpl; [done |].
  destruct (iteration self frame_interval tk st) as [st1|st1] eqn:E.
  - apply IH.
  - intros [= <-]. by apply break_stopped in E.
Qed.

(** While the loop goes on it has reported no error. *)
Lemma next_errors (tk : tick) (st st' : state) :
  iteration self frame_interval tk st = Next st' →
  errors (trace st') = errors (trace st).
Proof.
  unfold iteration.
  set (st1 := with_ctl _ st).
  destruct (_stop (ctl st1)); [done |].
  set (st2 := with_ctl _ st1).
  destruct (_pause (ctl st2)).
  { intros [= <-]. simpl. by rewrite errors_snoc, app_nil_r. }
  destruct (capture_frame self tk st2) as [st3|msg] eqn:E; [|done].
  apply capture_frame_ok in E as (s & _ & _ & ->).
  destruct (Qltb 0 _); intros [= <-]; simpl;
    rewrite !errors_snoc; simpl; by rewrite ?app_nil_r.
Qed.

Lemma spinning_errors (sched : list tick) (st st' : state) :
  capture_loop self frame_interval sched st = Spinning st' →
  errors (trace st') = errors (trace st).
Proof.
  revert st. induction sched as [|tk rest IH]; intros st; simpl.
  - by intros [= <-].
  - destruct (iteration self frame_interval tk st) as [st1|st1] eqn:E; [|done].
    intros H. apply IH in H. apply next_errors in E. congruence.
Qed.

(** The loop over a schedule cut in two. *)
Lemma capture_loop_app (pre rest : list tick) (st : state) :
  capture_loop self frame_interval (pre ++ rest) st =
  match capture_loop self frame_interval pre st with
  | Exited st' => Exited st'
  | Spinning st' => capture_loop self frame_interval rest st'
  end.
Proof.
  revert st. induction pre as [|tk pre IH]; intros st; simpl; [done |].
  by destruct (iteration self frame_interval tk st).
Qed.

(** A pass that reads both flags clear goes on to the capture. *)
Lemma iteration_running (tk : tick) (st : state) :
  attempts_capture tk st →
  iteration self frame_interval tk st =
    let st2 := with_ctl (flags_at_pause_test tk st) st in
    match capture_frame self tk st2 with
    | Raise msg => Break (on_loop_error msg st2)
    | Ok st3 =>
        if Qltb 0 (frame_interval - (clock_t1 tk - clock_t0 tk))
        then Next (sleep (frame_interval - (clock_t1 tk - clock_t0 tk)) st3)
        else Next st3
    end.
Proof.
  intros [H1 H2]. unfold iteration, flags_at_pause_test, flags_at_stop_test in *.
  cbn [with_ctl ctl]. by rewrite H1, H2.
Qed.

Lemma capture_frame_returns (tk : tick) (st : state) :
  capture_failure self tk = None → ∃ st', capture_frame self tk st = Ok st'.
Proof.
  intros H. destruct (capture_frame self tk st) as [st'|msg] eqn:E; [by eexists |].
  apply capture_frame_raise in E. congruence.
Qed.

Lemma with_ctl_same (st : state) : with_ctl (ctl st) st = st.
Proof. by destruct st. Qed.

Lemma apply_calls_pause_only (cs : list call) (f : flags) :
  Forall (fun c => c = CallPause) cs → _pause f = true → apply_calls cs f = f.
Proof.
  unfold apply_calls. induction 1 as [|c cs -> _ IH]; intros Hp; [done |].
  simpl. assert (pause f = f) as -> by (destruct f; simpl in *; by subst).
  by apply IH.
Qed.

(** A pass that finds the thread paused, and no [resume()] or [stop()]
    on its way, only sleeps. *)
Lemma iteration_paused (tk : tick) (st : state) :
  _pause (ctl st) = true → _stop (ctl st) = false → no_resume_no_stop tk →
  iteration self frame_interval tk st = Next (sleep (1 # 20) st).
Proof.
  intros Hp Hs [H1 H2]%Forall_app. unfold iteration.
  rewrite (apply_calls_pause_only _ _ H1 Hp), with_ctl_same, Hs.
  rewrite (apply_calls_pause_only _ _ H2 Hp), with_ctl_same. by rewrite Hp.
Qed.

End LoopFacts.

(** ** Assembly, upload and clean-up *)

Section AfterLoopFacts.

Variable self : RecorderThread.
Variable e : env.

Lemma imread_all_pngs (m : gmap string file) (l : list (string * image)) :
  Forall (fun pi => m !! pi.1 = Some (Png pi.2)) l →
  imread_all m l.*1 = Ok l.*2.
Proof.
  induction 1 as [|[p img] l Hp _ IH]; [done |].
  rewrite !fmap_cons. cbn [imread_all fst snd] in *.
  unfold imread. rewrite Hp. cbn [rbind]. by rewrite IH.
Qed.

(** Every spooled frame reads back as the image that was saved. *)
Lemma imread_all_spool (st : state) :
  spool_inv self st →
  imread_all (fs st) (frame_paths st) = Ok (spooled (trace st)).*2.
Proof.
  intros [_ _ I3 I4]. rewrite <- I3. by apply imread_all_pngs.
Qed.

Lemma remove_all_lookup (ps : list string) (m : gmap string file) (p : string) :
  remove_all ps m !! p = if decide (p ∈ ps) then None else m !! p.
Proof.
  unfold remove_all. revert m.
  induction ps as [|q ps IH]; intros m.
  - destruct (decide (p ∈ [])) as [H|_]; [by apply not_elem_of_nil in H | done].
  - cbn [fold_left]. rewrite IH.
    destruct (decide (p ∈ ps)) as [Hin|Hnin], (decide (p ∈ q :: ps)) as [Hin'|Hnin'];
      try done.
    + exfalso. apply Hnin'. by right.
    + apply elem_of_cons in Hin' as [->|?]; [apply lookup_delete_eq | done].
    + apply lookup_delete_ne. intros ->. apply Hnin'. by left.
Qed.

Lemma out_gif_not_frame (st : state) :
  spool_inv self st → out_gif self e ∉ frame_paths st.
Proof.
  intros [_ I2 _ _]. rewrite I2.
  intros (i & Heq & _)%list_elem_of_fmap.
  symmetry in Heq. by apply frame_path_not_gif in Heq.
Qed.

(** The upload stage only adds signals and the request to the trace. *)
Lemma upload_state (out : string) (st : state) :
  let st' := (upload self e out st).2 in
  ctl st' = ctl st ∧ frame_paths st' = frame_paths st ∧
  frame_num st' = frame_num st ∧ fs st' = fs st ∧
  spooled (trace st') = spooled (trace st) ∧
  errors (trace st') = errors (trace st).
Proof.
  unfold upload.
  destruct (server_url self) as [[|c u]|]; simpl; [done | | done].
  destruct (fs st !! out) as [f|]; [destruct (post e) as [msg|r] |];
    [| destruct (status_code r =? 200)%Z; [destruct (json r) as [[]|] |] |];
    simpl; rewrite ?spooled_snoc, ?errors_snoc; simpl;
    by rewrite ?app_nil_r.
Qed.

Lemma fs_log (ev : event) (st : state) : fs (log ev st) = fs st.
Proof. reflexivity. Qed.

Lemma upload_local (out : string) (st : state) :
  configured self = false → upload self e out st = (Py.VStr out, st).
Proof.
  unfold configured, upload. by destruct (server_url self) as [[|c u]|].
Qed.

Lemma upload_failed (out : string) (st : state) :
  configured self = true → delivery_fails (post e) →
  (upload self e out st).1 = Py.VStr "".
Proof.
  unfold configured, upload, delivery_fails. rewrite fs_log.
  destruct (server_url self) as [[|c u]|]; [done | | done]. intros _.
  destruct (fs st !! out); [|done].
  destruct (post e) as [msg|r]; [done |]. intros H.
  by rewrite (proj2 (Z.eqb_neq _ _) H).
Qed.

Lemma upload_delivered (out : string) (st : state) (f : file) (r : response)
    (kvs : list (string * Py.value)) (v : Py.value) :
  configured self = true → fs st !! out = Some f →
  post e = PostReturns r → status_code r = 200%Z →
  json r = Some (Py.VDict kvs) → Py.dict_find kvs "url" = Some v →
  Py.truthy v = true →
  (upload self e out st).1 = v.
Proof.
  unfold configured, upload. rewrite fs_log.
  destruct (server_url self) as [[|c u]|]; [done | | done].
  intros _ -> -> -> -> Hv Ht. simpl.
  unfold Py.dict_get, Py.por. by rewrite Hv, Ht.
Qed.

Lemma upload_no_url (out : string) (st : state) (r : response)
    (kvs : list (string * Py.value)) :
  configured self = true →
  post e = PostReturns r → status_code r = 200%Z →
  json r = Some (Py.VDict kvs) →
  Py.dict_find kvs "url" = None ∨ Py.dict_find kvs "url" = Some (Py.VStr "")
    ∨ Py.dict_find kvs "url" = Some Py.VNone →
  (upload self e out st).1 = Py.VStr "".
Proof.
  unfold configured, upload. rewrite fs_log.
  destruct (server_url self) as [[|c u]|]; [done | | done].
  intros _ -> -> -> Hv.
  destruct (fs st !! out); [|done]. simpl.
  unfold Py.dict_get, Py.por. by destruct Hv as [-> | [-> | ->]].
Qed.

Lemma emit_finished_cases (v : Py.value) (st : state) :
  (∃ s, v = Py.VStr s ∧ emit_finished v st = Returned (log (finished_signal v) st))
  ∨ ((∀ s, v ≠ Py.VStr s) ∧ ∃ msg, emit_finished v st = Uncaught st msg).
Proof. destruct v; try (right; split; [done | by eexists]). left. by eexists. Qed.

(** The encoder is handed the spooled frames, in order. *)
Lemma mimsave_spool (st : state) (out : string) (rate : Z) :
  spool_inv self st →
  mimsave e out (frame_paths st) rate (fs st) =
    match mimsave_raises e with
    | Some msg =>
        (if mimsave_truncates e then <[out := Truncated]> (fs st) else fs st, Some msg)
    | None => (<[out := Gif (spooled (trace st)).*2 rate]> (fs st), None)
    end.
Proof. intros I. unfold mimsave. by rewrite (imread_all_spool st I). Qed.

Lemma frames_not_empty (st : state) :
  1 ≤ length (frame_paths st) → (length (frame_paths st) =? 0)%nat = false.
Proof. intros H. apply Nat.eqb_neq. lia. Qed.

(** With at least one frame and an encoder that does not raise,
    [after_loop] is assembly, upload, clean-up and the final signal. *)
Lemma after_loop_assembled (st : state) :
  spool_inv self st → 1 ≤ length (frame_paths st) → mimsave_raises e = None →
  after_loop self e st =
    let '(url, st2) := upload self e (out_gif self e) (assembled self e st) in
    emit_finished (if Py.truthy url then url else Py.VStr (out_gif self e))
        (with_fs (remove_all (frame_paths st2) (fs st2)) st2).
Proof.
  intros I Hne Hm. unfold after_loop. rewrite (frames_not_empty st Hne).
  change (frame_paths (log (progress_signal "assembling") st)) with (frame_paths st).
  rewrite fs_log, (mimsave_spool st _ _ I), Hm. reflexivity.
Qed.

(** With at least one frame and an encoder that raises. *)
Lemma after_loop_encoder_raises (st : state) (msg : string) :
  spool_inv self st → 1 ≤ length (frame_paths st) → mimsave_raises e = Some msg →
  after_loop self e st =
    Returned
      (log (finished_signal (Py.VStr ""))
         (log (progress_signal ("error: " +:+ msg))
            (with_fs (if mimsave_truncates e
                      then <[out_gif self e := Truncated]> (fs st) else fs st)
               (log (progress_signal "assembling") st)))).
Proof.
  intros I Hne Hm. unfold after_loop. rewrite (frames_not_empty st Hne).
  change (frame_paths (log (progress_signal "assembling") st)) with (frame_paths st).
  rewrite fs_log, (mimsave_spool st _ _ I), Hm. reflexivity.
Qed.

Lemma after_loop_no_frames (st : state) :
  frame_paths st = [] →
  after_loop self e st =
    Returned
      (log (finished_signal (Py.VStr ""))
         (with_fs (rmtree (tmpdir self) (fs st)) (log (progress_signal "no_frames") st))).
Proof. intros H. unfold after_loop. by rewrite H. Qed.

Lemma rmtree_inside (m : gmap string file) (p : string) :
  PyStr.inside (tmpdir self) p = true → rmtree (tmpdir self) m !! p = None.
Proof.
  intros H. unfold rmtree. apply map_lookup_filter_None_2. right.
  intros x _. simpl. congruence.
Qed.

(** Nothing is spooled once the loop is left. *)
Lemma after_loop_spooled (st : state) :
  spooled (trace (outcome_state (after_loop self e st))) = spooled (trace st).
Proof.
  unfold after_loop.
  destruct (length (frame_paths st) =? 0)%nat.
  { cbn [emit_finished outcome_state log with_fs trace].
    by rewrite !spooled_snoc, !app_nil_r. }
  destruct (mimsave e _ _ _ _) as [m [msg|]].
  - cbn [emit_finished outcome_state log with_fs trace].
    by rewrite !spooled_snoc, !app_nil_r.
  - pose proof (upload_state (out_gif self e)
                  (with_fs m (log (progress_signal "assembling") st))) as Hu.
    destruct (upload self e _ _) as [url st2]. simpl in Hu.
    destruct Hu as (_ & _ & _ & _ & Hs & _).
    destruct (emit_finished_cases
                (if Py.truthy url then url else Py.VStr (out_gif self e))
                (with_fs (remove_all (frame_paths st2) (fs st2)) st2))
      as [(s0 & _ & ->) | (_ & msg & ->)];
      cbn [outcome_state log with_fs trace]; rewrite ?spooled_snoc, ?app_nil_r, Hs;
      cbn [log with_fs trace]; by rewrite spooled_snoc, app_nil_r.
Qed.

(** A 200 answer without a usable [url] leaves the upload stage as a
    request that raised does. *)
Lemma upload_no_url_as_failed (out : string) (st : state) (r : response)
    (kvs : list (string * Py.value)) (msg : string) :
  post e = PostReturns r → status_code r = 200%Z →
  json r = Some (Py.VDict kvs) →
  Py.dict_find kvs "url" = None ∨ Py.dict_find kvs "url" = Some (Py.VStr "")
    ∨ Py.dict_find kvs "url" = Some Py.VNone →
  upload self e out st = upload self (with_post (PostRaises msg) e) out st.
Proof.
  intros Hp Hs Hj Hv. unfold upload. cbn [with_post post]. rewrite Hp, Hs, Hj.
  destruct (server_url self) as [[|c u]|]; try done.
  destruct (fs _ !! out); [|done]. simpl.
  unfold Py.dict_get, Py.por. by destruct Hv as [-> | [-> | ->]].
Qed.

End AfterLoopFacts.

(** * Sessions *)

Section Sessions.

Variable self : RecorderThread.
Variable e : env.

Lemma spool_inv_initial (m : gmap string file) :
  spool_inv self (log (progress_signal "recording") (initial m)).
Proof. by split. Qed.

(** A session whose loop has ended goes on with [after_loop]. *)
Lemma run_returns (sched : list tick) (m : gmap string file) (st : state) :
  starts self e → capture self sched m = Exited st →
  run self e sched m = after_loop self e st ∧ spool_inv self st ∧
  _stop (ctl st) = true.
Proof.
  intros [Hmss Hfps] Hcap. unfold run.
  rewrite Hmss, (proj2 (Z.eqb_neq _ _) Hfps), Hcap. split; [done |].
  unfold capture in Hcap. split.
  - pose proof (spool_inv_loop self (1 / inject_Z (fps self))%Q sched _
                  (spool_inv_initial m)) as H.
    by rewrite Hcap in H.
  - by apply exited_stopped in Hcap.
Qed.

(** [stop()] ends the loop: with a [stop()] somewhere in the schedule
    the loop is left. *)
Lemma stop_ends_loop (frame_interval : Q) (sched : list tick) (st : state) :
  Exists (fun tk => CallStop ∈ calls_before_stop_test tk) sched →
  ∃ st', capture_loop self frame_interval sched st = Exited st'.
Proof.
  intros H. revert st. induction H as [tk rest Hin | tk rest _ IH]; intros st; simpl.
  - destruct (iteration self frame_interval tk st) as [st1|st1] eqn:E; [|by eexists].
    exfalso. revert E. unfold iteration.
    assert (_stop (apply_calls (calls_before_stop_test tk) (ctl st)) = true) as Hs.
    { unfold apply_calls. revert Hin. generalize (ctl st).
      induction (calls_before_stop_test tk) as [|c cs IHc]; intros f Hin;
        [by apply not_elem_of_nil in Hin |].
      simpl. apply elem_of_cons in Hin as [<-|Hin]; [|by apply IHc].
      clear. simpl. generalize (stop f) (eq_refl : _stop (stop f) = true).
      induction cs as [|c cs IHc]; intros g Hg; [done |].
      simpl. apply IHc. by destruct c. }
    simpl. by rewrite Hs.
  - destruct (iteration self frame_interval tk st) as [st1|st1]; [apply IH | by eexists].
Qed.

(** What a session with at least one frame and a working encoder has
    reached when it hands its reference to the final signal. *)
Lemma session_before_emit (sched : list tick) (m : gmap string file) (st : state) :
  starts self e → capture self sched m = Exited st →
  1 ≤ length (frame_paths st) → mimsave_raises e = None →
  ∃ st2, run self e sched m = emit_finished (reference self e st) st2 ∧
    spooled (trace st2) = spooled (trace st) ∧
    (spooled (trace st)).*1 = frame_path self <$> seq 0 (length (frame_paths st)) ∧
    fs st2 !! out_gif self e = Some (Gif (spooled (trace st)).*2 (fps self)) ∧
    (∀ p, p ∈ frame_paths st → fs st2 !! p = None) ∧
    errors (trace st2) = errors (trace st).
Proof.
  intros Hfps Hcap Hlen Hm.
  destruct (run_returns sched m st Hfps Hcap) as (Hrun & I & _).
  rewrite Hrun, (after_loop_assembled self e st I Hlen Hm). unfold reference.
  pose proof (upload_state self e (out_gif self e) (assembled self e st)) as Hu.
  destruct (upload self e (out_gif self e) (assembled self e st)) as [url st2].
  simpl in Hu. destruct Hu as (_ & Hp & _ & Hf & Hs & He).
  eexists. split; [reflexivity |].
  cbn [fst]. cbn [log with_fs trace fs].
  rewrite Hs, He, Hp, Hf.
  unfold assembled. cbn [log with_fs trace fs frame_paths].
  rewrite spooled_snoc, errors_snoc, !app_nil_r.
  repeat split.
  - destruct I as [I1 I2 I3 _]. by rewrite I3, I2 at 1; rewrite I1.
  - rewrite remove_all_lookup, decide_False by (by apply out_gif_not_frame).
    apply lookup_insert_eq.
  - intros p Hin. by rewrite remove_all_lookup, decide_True.
Qed.

(** The same when the reference is a string: the session returns. *)
Lemma session_assembled (sched : list tick) (m : gmap string file) (st : state)
    (s : string) :
  starts self e → capture self sched m = Exited st →
  1 ≤ length (frame_paths st) → mimsave_raises e = None →
  reference self e st = Py.VStr s →
  ∃ st', run self e sched m = Returned st' ∧
    final_result (trace st') = Some (Py.VStr s) ∧
    spooled (trace st') = spooled (trace st) ∧
    (spooled (trace st)).*1 = frame_path self <$> seq 0 (length (frame_paths st)) ∧
    fs st' !! out_gif self e = Some (Gif (spooled (trace st)).*2 (fps self)) ∧
    (∀ p, p ∈ frame_paths st → fs st' !! p = None) ∧
    errors (trace st') = errors (trace st).
Proof.
  intros Hfps Hcap Hlen Hm Href.
  destruct (session_before_emit sched m st Hfps Hcap Hlen Hm)
    as (st2 & Hrun & Hs & Hp & Hg & Hrm & He).
  rewrite Href in Hrun. cbn [emit_finished] in Hrun.
  eexists. split; [exact Hrun |]. cbn [log trace fs].
  rewrite final_result_finished, spooled_snoc, errors_snoc, !app_nil_r.
  by repeat split.
Qed.

(** The same whatever the reference is: the session returns or dies at
    the final signal, and it returns when the reference is a string. *)
Lemma session_ends (sched : list tick) (m : gmap string file) (st : state) :
  starts self e → capture self sched m = Exited st →
  1 ≤ length (frame_paths st) → mimsave_raises e = None →
  ∃ st', (run self e sched m = Returned st' ∨ ∃ msg, run self e sched m = Uncaught st' msg) ∧
    (∀ s, reference self e st = Py.VStr s →
       run self e sched m = Returned st' ∧ final_result (trace st') = Some (Py.VStr s)) ∧
    spooled (trace st') = spooled (trace st) ∧
    (spooled (trace st)).*1 = frame_path self <$> seq 0 (length (frame_paths st)) ∧
    fs st' !! out_gif self e = Some (Gif (spooled (trace st)).*2 (fps self)) ∧
    (∀ p, p ∈ frame_paths st → fs st' !! p = None) ∧
    errors (trace st') = errors (trace st).
Proof.
  intros Hfps Hcap Hlen Hm.
  destruct (session_before_emit sched m st Hfps Hcap Hlen Hm)
    as (st2 & Hrun & Hs & Hp & Hg & Hrm & He).
  destruct (emit_finished_cases (reference self e st) st2)
    as [(s0 & Hv & Hem) | (Hv & msg & Hem)]; rewrite Hem in Hrun.
  - eexists. split; [by left |]. split.
    { intros s Hs'. split; [done |]. cbn [log trace].
      by rewrite final_result_finished, Hs'. }
    cbn [log trace fs].
    rewrite spooled_snoc, errors_snoc, !app_nil_r. by repeat split.
  - exists st2. split; [right; by exists msg |]. split; [| done].
    intros s0 Hs0. by destruct (Hv s0).
Qed.

(** The reference of a session, by what the upload stage met. *)
Lemma reference_local (st : state) :
  configured self = false → reference self e st = Py.VStr (out_gif self e).
Proof.
  intros H. unfold reference. rewrite (upload_local self e _ _ H). cbn [fst].
  by destruct (Py.truthy _).
Qed.

Lemma reference_failed (st : state) :
  configured self = true → delivery_fails (post e) →
  reference self e st = Py.VStr (out_gif self e).
Proof.
  intros Hc Hf. unfold reference. by rewrite (upload_failed self e _ _ Hc Hf).
Qed.

Lemma reference_delivered (st : state) (r : response)
    (kvs : list (string * Py.value)) (v : Py.value) :
  configured self = true →
  post e = PostReturns r → status_code r = 200%Z →
  json r = Some (Py.VDict kvs) → Py.dict_find kvs "url" = Some v →
  Py.truthy v = true →
  reference self e st = v.
Proof.
  intros Hc Hp Hs Hj Hv Ht. unfold reference.
  rewrite (upload_delivered self e _ _ (Gif (spooled (trace st)).*2 (fps self))
             r kvs v Hc); try done.
  - by rewrite Ht.
  - unfold assembled. cbn [with_fs fs]. apply lookup_insert_eq.
Qed.

Lemma reference_no_url (st : state) (r : response)
    (kvs : list (string * Py.value)) :
  configured self = true →
  post e = PostReturns r → status_code r = 200%Z →
  json r = Some (Py.VDict kvs) →
  Py.dict_find kvs "url" = None ∨ Py.dict_find kvs "url" = Some (Py.VStr "")
    ∨ Py.dict_find kvs "url" = Some Py.VNone →
  reference self e st = Py.VStr (out_gif self e).
Proof.
  intros Hc Hp Hs Hj Hv. unfold reference.
  by rewrite (upload_no_url self e _ _ r kvs Hc Hp Hs Hj Hv).
Qed.

(** When the answer carries no url the signal cannot take, the value
    handed to the final signal is a string. *)
Lemma upload_text (out : string) (st : state) :
  url_is_text e →
  ∃ s, (if Py.truthy (upload self e out st).1
        then (upload self e out st).1 else Py.VStr out) = Py.VStr s.
Proof.
  intros Htext. unfold upload.
  destruct (server_url self) as [[|c u]|];
    try (eexists; cbn [fst]; by destruct (Py.truthy _)).
  rewrite fs_log. destruct (fs st !! out); [| by eexists].
  destruct (post e) as [pm|r] eqn:Hp; [by eexists |].
  destruct (status_code r =? 200)%Z eqn:Hs; [| by eexists].
  apply Z.eqb_eq in Hs.
  destruct (json r) as [[| | | | |kvs]|] eqn:Hj; try by eexists.
  cbn [fst]. unfold Py.dict_get, Py.por.
  destruct (Py.dict_find kvs "url") as [v|] eqn:Hv; [| by eexists].
  destruct (Py.truthy v) eqn:Ht; [| by eexists].
  rewrite Ht. destruct (Htext r kvs v Hp Hs Hj Hv Ht) as [u0 ->]. by eexists.
Qed.

Lemma reference_text (st : state) :
  url_is_text e → ∃ s, reference self e st = Py.VStr s.
Proof. intros Htext. by apply upload_text. Qed.

End Sessions.

(** * The claims *)

(** C1, as the spec has it, fails. A GIF declares a delay per frame in
    whole hundredths of a second. In the sample session at the window's
    default rate of 12 frames a second, with an encoder that rounds the
    delay down and merges equal neighbours, the three captured frames
    become two, shown for 16 and 8 hundredths: neither the frames nor
    the rate of the file are those of the capture. And no whole delay
    whatever declares 12 frames a second. *)
Lemma gif_declares_another_rate :
  run Samples.default_recorder Demo.timed_out Samples.three_frames ∅
    = Returned Samples.three_frames_end ∧
  (spooled (trace Samples.three_frames_end)).*2
    = [Demo.frame 1; Demo.frame 1; Demo.frame 2] ∧
  fs Samples.three_frames_end !! Demo.gif =
    Some (Gif [Demo.frame 1; Demo.frame 1; Demo.frame 2] 12) ∧
  (fs Samples.three_frames_end !! Demo.gif ≫= gif_contents Demo.timed_out) =
    Some [(Demo.frame 1, 16%Z); (Demo.frame 2, 8%Z)] ∧
  [(Demo.frame 1, 16%Z); (Demo.frame 2, 8%Z)].*1
    ≠ (spooled (trace Samples.three_frames_end)).*2 ∧
  ¬ declares_rate 12 [(Demo.frame 1, 16%Z); (Demo.frame 2, 8%Z)] ∧
  (∀ d : Z, 12 * d ≠ 100)%Z.
Proof.
  split; [vm_compute; reflexivity |].
  split; [vm_compute; reflexivity |].
  split; [vm_compute; reflexivity |].
  split; [vm_compute; reflexivity |].
  split; [vm_compute; discriminate |].
  split; [| intros d; lia].
  intros H. apply Forall_cons in H as [H _]. simpl in H. lia.
Qed.

(** C1, amended: a session that has captured N >= 1 frames and whose
    assembly succeeds ends with a GIF that the encoder made of the
    spooled images in the order they were saved, asked for the recorder's
    [fps]; the spool files are [frame_path 0], ..., [frame_path (N-1)] in
    that order (sequence numbers start at 0 and go up by 1). What the
    file declares is what the encoder stores for these frames at this
    rate. The session returns when the reference it hands to the final
    signal is a string. *)
Theorem frames_assembled_in_capture_order
    (self : RecorderThread) (e : env) (sched : list tick)
    (m : gmap string file) (st : state) :
  starts self e → capture self sched m = Exited st →
  1 ≤ length (frame_paths st) → mimsave_raises e = None →
  ∃ st', (run self e sched m = Returned st' ∨ ∃ msg, run self e sched m = Uncaught st' msg) ∧
    (url_is_text e → run self e sched m = Returned st') ∧
    length (spooled (trace st')) = length (frame_paths st) ∧
    (spooled (trace st')).*1 = frame_path self <$> seq 0 (length (frame_paths st)) ∧
    fs st' !! out_gif self e = Some (Gif (spooled (trace st')).*2 (fps self)) ∧
    (fs st' !! out_gif self e ≫= gif_contents e) =
      Some (encoder e (spooled (trace st')).*2 (fps self)).
Proof.
  intros Hfps Hcap Hlen Hm.
  destruct (session_ends self e sched m st Hfps Hcap Hlen Hm)
    as (st' & Hrun & Htext & Hs & Hp & Hg & _).
  exists st'. rewrite Hs. split; [done |]. split.
  { intros H. destruct (reference_text self e st H) as [s Href].
    by destruct (Htext s Href). }
  split.
  { apply (f_equal length) in Hp. by rewrite !length_fmap, length_seq in Hp. }
  split; [done |]. split; [done |]. by rewrite Hg.
Qed.

Lemma frames_assembled_in_capture_order_witness :
  ∃ st', (run Demo.local_recorder Demo.timed_out Demo.two_frames ∅ = Returned st'
          ∨ ∃ msg, run Demo.local_recorder Demo.timed_out Demo.two_frames ∅
                   = Uncaught st' msg) ∧
    (url_is_text Demo.timed_out →
     run Demo.local_recorder Demo.timed_out Demo.two_frames ∅ = Returned st') ∧
    length (spooled (trace st')) = length (frame_paths Demo.two_frames_exit) ∧
    (spooled (trace st')).*1 =
      frame_path Demo.local_recorder <$> seq 0 (length (frame_paths Demo.two_frames_exit)) ∧
    fs st' !! out_gif Demo.local_recorder Demo.timed_out =
      Some (Gif (spooled (trace st')).*2 (fps Demo.local_recorder)) ∧
    (fs st' !! out_gif Demo.local_recorder Demo.timed_out ≫= gif_contents Demo.timed_out) =
      Some (encoder Demo.timed_out (spooled (trace st')).*2 (fps Demo.local_recorder)).
Proof.
  apply (frames_assembled_in_capture_order
           Demo.local_recorder Demo.timed_out Demo.two_frames ∅ Demo.two_frames_exit).
  - by split.
  - vm_compute. reflexivity.
  - vm_compute. lia.
  - reflexivity.
Defined.

(** C2, as the spec has it, fails: after a delivery attempt that timed
    out the spooled frame files are gone. *)
Lemma frames_removed_after_failed_delivery :
  capture Demo.remote_recorder Demo.two_frames ∅ = Exited Demo.two_frames_remote_exit ∧
  configured Demo.remote_recorder = true ∧
  delivery_fails (post Demo.timed_out) ∧
  frame_paths Demo.two_frames_remote_exit = [Demo.frame0; Demo.frame1] ∧
  fs Demo.two_frames_remote_exit !! Demo.frame0 = Some (Png (Demo.frame 1)) ∧
  ∃ st', run Demo.remote_recorder Demo.timed_out Demo.two_frames ∅ = Returned st' ∧
    fs st' !! Demo.frame0 = None ∧ fs st' !! Demo.frame1 = None.
Proof.
  repeat split; try (vm_compute; reflexivity).
  exists Samples.timed_out_end. repeat split; vm_compute; reflexivity.
Qed.

(** C2, amended: when a delivery target is configured and the delivery
    attempt fails (the request raises, or the status is not 200), the
    session still returns, without a further error event; the result is
    the local path of the GIF, the GIF stays on disk, and the frame files
    are removed as after any assembly. *)
Theorem failed_delivery_falls_back
    (self : RecorderThread) (e : env) (sched : list tick)
    (m : gmap string file) (st : state) :
  starts self e → capture self sched m = Exited st →
  1 ≤ length (frame_paths st) → mimsave_raises e = None →
  configured self = true → delivery_fails (post e) →
  ∃ st', run self e sched m = Returned st' ∧
    final_result (trace st') = Some (Py.VStr (out_gif self e)) ∧
    errors (trace st') = errors (trace st) ∧
    fs st' !! out_gif self e = Some (Gif (spooled (trace st)).*2 (fps self)) ∧
    (∀ p, p ∈ frame_paths st → fs st' !! p = None).
Proof.
  intros Hfps Hcap Hlen Hm Hcfg Hfail.
  destruct (session_assembled self e sched m st (out_gif self e) Hfps Hcap Hlen Hm
              (reference_failed self e st Hcfg Hfail))
    as (st' & Hrun & Hres & _ & _ & Hg & Hrm & Herr).
  exists st'. by repeat split.
Qed.

Lemma failed_delivery_falls_back_witness :
  ∃ st', run Demo.remote_recorder Demo.timed_out Demo.two_frames ∅ = Returned st' ∧
    final_result (trace st') = Some (Py.VStr (out_gif Demo.remote_recorder Demo.timed_out)) ∧
    errors (trace st') = errors (trace Demo.two_frames_remote_exit) ∧
    fs st' !! out_gif Demo.remote_recorder Demo.timed_out =
      Some (Gif (spooled (trace Demo.two_frames_remote_exit)).*2 (fps Demo.remote_recorder)) ∧
    (∀ p, p ∈ frame_paths Demo.two_frames_remote_exit → fs st' !! p = None).
Proof.
  apply (failed_delivery_falls_back
           Demo.remote_recorder Demo.timed_out Demo.two_frames ∅
           Demo.two_frames_remote_exit).
  - by split.
  - vm_compute. reflexivity.
  - vm_compute. lia.
  - reflexivity.
  - reflexivity.
  - exact I.
Defined.

(** C4, as the spec has it, fails: the store answers 200 and the [url]
    member of its JSON object is the number 123. The request was sent and
    answered, the value counts as true, the frame files are removed, and
    then the final signal, which takes a string, refuses the value: the
    thread dies of the [TypeError] and the caller receives no result. *)
Lemma numeric_url_gives_no_result :
  capture Demo.remote_recorder Demo.two_frames ∅ = Exited Demo.two_frames_remote_exit ∧
  configured Demo.remote_recorder = true ∧
  post Samples.numeric_url =
    PostReturns {| status_code := 200;
                   json := Some (Py.VDict [("url", Py.VInt 123)]) |} ∧
  Py.truthy (Py.VInt 123) = true ∧
  run Demo.remote_recorder Samples.numeric_url Demo.two_frames ∅ =
    Uncaught Samples.numeric_url_end
      "RecorderThread.finished_signal[str].emit(): argument 1 has unexpected type 'int'" ∧
  posts (trace Samples.numeric_url_end) = ["http://store/upload"] ∧
  final_result (trace Samples.numeric_url_end) = None ∧
  fs Samples.numeric_url_end !! Demo.frame0 = None ∧
  fs Samples.numeric_url_end !! Demo.frame1 = None.
Proof. repeat split; vm_compute; reflexivity. Qed.

(** C4, amended: when the delivery attempt succeeds with a [url] that
    is a non-empty string (status 200, a JSON object with that member),
    the result is that url, every frame file is removed and the GIF is
    still on disk. *)
Theorem delivered_reference_is_store_url
    (self : RecorderThread) (e : env) (sched : list tick)
    (m : gmap string file) (st : state) (r : response)
    (kvs : list (string * Py.value)) (u : string) :
  starts self e → capture self sched m = Exited st →
  1 ≤ length (frame_paths st) → mimsave_raises e = None →
  configured self = true →
  post e = PostReturns r → status_code r = 200%Z →
  json r = Some (Py.VDict kvs) → Py.dict_find kvs "url" = Some (Py.VStr u) →
  u ≠ "" →
  ∃ st', run self e sched m = Returned st' ∧
    final_result (trace st') = Some (Py.VStr u) ∧
    (∀ p, p ∈ frame_paths st → fs st' !! p = None) ∧
    fs st' !! out_gif self e = Some (Gif (spooled (trace st)).*2 (fps self)).
Proof.
  intros Hfps Hcap Hlen Hm Hcfg Hpost Hst Hjs Hurl Hu.
  assert (Py.truthy (Py.VStr u) = true) as Ht
    by (cbn; by rewrite (proj2 (String.eqb_neq _ _) Hu)).
  destruct (session_assembled self e sched m st u Hfps Hcap Hlen Hm
              (reference_delivered self e st r kvs _ Hcfg Hpost Hst Hjs Hurl Ht))
    as (st' & Hrun & Hres & _ & _ & Hg & Hrm & _).
  exists st'. by repeat split.
Qed.

Lemma delivered_reference_is_store_url_witness :
  ∃ st', run Demo.remote_recorder
             (Demo.answer 200 [("url", Py.VStr "http://store/x.gif")])
             Demo.two_frames ∅ = Returned st' ∧
    final_result (trace st') = Some (Py.VStr "http://store/x.gif") ∧
    (∀ p, p ∈ frame_paths Demo.two_frames_remote_exit → fs st' !! p = None) ∧
    fs st' !! out_gif Demo.remote_recorder
                (Demo.answer 200 [("url", Py.VStr "http://store/x.gif")]) =
      Some (Gif (spooled (trace Demo.two_frames_remote_exit)).*2 (fps Demo.remote_recorder)).
Proof.
  apply (delivered_reference_is_store_url
           Demo.remote_recorder (Demo.answer 200 [("url", Py.VStr "http://store/x.gif")])
           Demo.two_frames ∅ Demo.two_frames_remote_exit
           {| status_code := 200; json := Some (Py.VDict [("url", Py.VStr "http://store/x.gif")]) |}
           [("url", Py.VStr "http://store/x.gif")]).
  - by split.
  - vm_compute. reflexivity.
  - vm_compute. lia.
  - reflexivity.
  - reflexivity.
  - reflexivity.
  - reflexivity.
  - reflexivity.
  - reflexivity.
  - discriminate.
Defined.

(** C5: a session that leaves the loop with no frame emits [no_frames]
    and then the empty result, removes everything under the spool
    directory, and writes no GIF. *)
Theorem no_frames_empty_result
    (self : RecorderThread) (e : env) (sched : list tick)
    (m : gmap string file) (st : state) :
  starts self e → capture self sched m = Exited st → frame_paths st = [] →
  ∃ st', run self e sched m = Returned st' ∧
    trace st' = trace st ++ [progress_signal "no_frames"; finished_signal (Py.VStr "")] ∧
    final_result (trace st') = Some (Py.VStr "") ∧
    (∀ p, PyStr.inside (tmpdir self) p = true → fs st' !! p = None) ∧
    fs st' !! out_gif self e = None ∧
    spooled (trace st') = [].
Proof.
  intros Hfps Hcap Hnil.
  destruct (run_returns self e sched m st Hfps Hcap) as (Hrun & [_ _ I3 _] & _).
  rewrite (after_loop_no_frames self e st Hnil) in Hrun.
  eexists. split; [exact Hrun |]. cbn [log with_fs trace fs].
  repeat split.
  - by rewrite <- app_assoc.
  - apply final_result_finished.
  - intros p Hp. by apply rmtree_inside.
  - apply rmtree_inside, inside_pjoin.
  - rewrite !spooled_snoc, !app_nil_r.
    rewrite Hnil in I3. by apply fmap_nil_inv in I3.
Qed.

Lemma no_frames_empty_result_witness :
  ∃ st', run Demo.local_recorder Demo.timed_out [Demo.call_tick [CallStop]] ∅ = Returned st' ∧
    trace st' = trace Demo.stopped_at_once_exit
                ++ [progress_signal "no_frames"; finished_signal (Py.VStr "")] ∧
    final_result (trace st') = Some (Py.VStr "") ∧
    (∀ p, PyStr.inside (tmpdir Demo.local_recorder) p = true → fs st' !! p = None) ∧
    fs st' !! out_gif Demo.local_recorder Demo.timed_out = None ∧
    spooled (trace st') = [].
Proof.
  apply (no_frames_empty_result
           Demo.local_recorder Demo.timed_out [Demo.call_tick [CallStop]] ∅
           Demo.stopped_at_once_exit).
  - by split.
  - vm_compute. reflexivity.
  - reflexivity.
Defined.

(** C10: a 200 answer whose JSON object has no [url] member, an empty one
    or [null] does not fail the session: the result is the local path of
    the GIF, and the session ends in the very state it ends in when the
    request raises. *)
Theorem missing_url_falls_back
    (self : RecorderThread) (e : env) (sched : list tick)
    (m : gmap string file) (st : state) (r : response)
    (kvs : list (string * Py.value)) (msg : string) :
  starts self e → capture self sched m = Exited st →
  1 ≤ length (frame_paths st) → mimsave_raises e = None →
  configured self = true →
  post e = PostReturns r → status_code r = 200%Z →
  json r = Some (Py.VDict kvs) →
  Py.dict_find kvs "url" = None ∨ Py.dict_find kvs "url" = Some (Py.VStr "")
    ∨ Py.dict_find kvs "url" = Some Py.VNone →
  ∃ st', run self e sched m = Returned st' ∧
    final_result (trace st') = Some (Py.VStr (out_gif self e)) ∧
    run self (with_post (PostRaises msg) e) sched m = Returned st'.
Proof.
  intros Hfps Hcap Hlen Hm Hcfg Hpost Hst Hjs Hurl.
  destruct (session_assembled self e sched m st (out_gif self e) Hfps Hcap Hlen Hm
              (reference_no_url self e st r kvs Hcfg Hpost Hst Hjs Hurl))
    as (st' & Hrun & Hres & _).
  exists st'. repeat split; try done.
  rewrite <- Hrun. unfold run. cbn [with_post mss_raises].
  destruct (mss_raises e); [done |]. destruct (fps self =? 0)%Z; [done |].
  rewrite Hcap. unfold after_loop.
  destruct (length (frame_paths st) =? 0)%nat; [done |].
  unfold out_gif, mimsave.
  cbn [with_post gif_time mimsave_raises mimsave_truncates].
  destruct (imread_all _ _) as [imgs|]; [|done].
  destruct (mimsave_raises e); [done |].
  by rewrite <- (upload_no_url_as_failed self e _ _ r kvs msg Hpost Hst Hjs Hurl).
Qed.

Lemma missing_url_falls_back_witness :
  ∃ st', run Demo.remote_recorder (Demo.answer 200 [("id", Py.VStr "7")])
             Demo.two_frames ∅ = Returned st' ∧
    final_result (trace st') =
      Some (Py.VStr (out_gif Demo.remote_recorder (Demo.answer 200 [("id", Py.VStr "7")]))) ∧
    run Demo.remote_recorder
        (with_post (PostRaises "Connection refused") (Demo.answer 200 [("id", Py.VStr "7")]))
        Demo.two_frames ∅ = Returned st'.
Proof.
  apply (missing_url_falls_back
           Demo.remote_recorder (Demo.answer 200 [("id", Py.VStr "7")])
           Demo.two_frames ∅ Demo.two_frames_remote_exit
           {| status_code := 200; json := Some (Py.VDict [("id", Py.VStr "7")]) |}
           [("id", Py.VStr "7")] "Connection refused").
  - by split.
  - vm_compute. reflexivity.
  - vm_compute. lia.
  - reflexivity.
  - reflexivity.
  - reflexivity.
  - reflexivity.
  - reflexivity.
  - left. reflexivity.
Defined.

(** C3, as the spec has it, fails: one frame is captured, then the grab
    raises; the session reports the error once, and still assembles the
    frame captured before the failure and hands the caller the path of
    the GIF instead of the empty result. *)
Lemma artifact_after_capture_failure :
  capture Demo.local_recorder [Demo.ok_tick 1 0 (1 # 100)] ∅ = Spinning Demo.one_frame_state ∧
  attempts_capture Demo.grab_fails_tick Demo.one_frame_state ∧
  capture_failure Demo.local_recorder Demo.grab_fails_tick = Some "XGetImage() failed" ∧
  ∃ st', run Demo.local_recorder Demo.timed_out Demo.one_frame_then_failure ∅ = Returned st' ∧
    errors (trace st') = [progress_signal "error: XGetImage() failed"] ∧
    final_result (trace st') = Some (Py.VStr Demo.gif) ∧
    final_result (trace st') ≠ Some (Py.VStr "") ∧
    fs st' !! Demo.gif = Some (Gif [Demo.frame 1] 10).
Proof.
  split; [vm_compute; reflexivity |].
  split; [split; reflexivity |].
  split; [reflexivity |].
  exists Samples.grab_failure_end. split; [vm_compute; reflexivity |].
  repeat split; try (vm_compute; reflexivity).
  vm_compute. discriminate.
Qed.

(** C3, amended: when the grab or the save of a pass raises, the loop is
    left at once: the pass emits one [error: <detail>] event, the only
    one of the loop, saves nothing, and the rest of the schedule is never
    reached, so no further frame is captured in the session. When no frame
    had been captured before, [no_frames] follows, the caller receives the
    empty result, nothing is left under the spool directory and there is
    no GIF. Otherwise the session goes on as after [stop()]: when the
    encoder does not fail, the frames captured before the failure are
    assembled into the GIF, the frame files are removed, no second error
    is reported, and the caller receives the local path of the GIF when
    no delivery target is configured or the delivery fails, and the
    store's url when the delivery succeeds with a non-empty string. *)
Theorem capture_failure_ends_capture
    (self : RecorderThread) (e : env) (pre : list tick) (tk : tick)
    (rest : list tick) (m : gmap string file) (st : state) (msg : string) :
  starts self e → capture self pre m = Spinning st →
  attempts_capture tk st → capture_failure self tk = Some msg →
  ∃ st1, capture self (pre ++ tk :: rest) m = Exited st1 ∧
    trace st1 = trace st ++ [progress_signal ("error: " +:+ msg)] ∧
    errors (trace st1) = [progress_signal ("error: " +:+ msg)] ∧
    frame_paths st1 = frame_paths st ∧ fs st1 = fs st ∧
    spooled (trace (outcome_state (run self e (pre ++ tk :: rest) m)))
      = spooled (trace st) ∧
    (frame_paths st = [] →
       ∃ st', run self e (pre ++ tk :: rest) m = Returned st' ∧
         trace st' = trace st1 ++ [progress_signal "no_frames";
                                   finished_signal (Py.VStr "")] ∧
         final_result (trace st') = Some (Py.VStr "") ∧
         (∀ p, PyStr.inside (tmpdir self) p = true → fs st' !! p = None) ∧
         fs st' !! out_gif self e = None) ∧
    (1 ≤ length (frame_paths st) → mimsave_raises e = None →
       ∃ st', (run self e (pre ++ tk :: rest) m = Returned st'
               ∨ ∃ msg', run self e (pre ++ tk :: rest) m = Uncaught st' msg') ∧
         errors (trace st') = [progress_signal ("error: " +:+ msg)] ∧
         fs st' !! out_gif self e = Some (Gif (spooled (trace st)).*2 (fps self)) ∧
         (∀ p, p ∈ frame_paths st → fs st' !! p = None) ∧
         (configured self = false ∨ delivery_fails (post e) →
            run self e (pre ++ tk :: rest) m = Returned st' ∧
            final_result (trace st') = Some (Py.VStr (out_gif self e))) ∧
         (∀ r kvs u,
            configured self = true →
            post e = PostReturns r → status_code r = 200%Z →
            json r = Some (Py.VDict kvs) →
            Py.dict_find kvs "url" = Some (Py.VStr u) → u ≠ "" →
            run self e (pre ++ tk :: rest) m = Returned st' ∧
            final_result (trace st') = Some (Py.VStr u))).
Proof.
  intros Hfps Hpre Hrun Hfail.
  set (st2 := with_ctl (flags_at_pause_test tk st) st).
  assert (capture self (pre ++ tk :: rest) m = Exited (on_loop_error msg st2)) as Hcap.
  { unfold capture in *. rewrite capture_loop_app, Hpre. cbn [capture_loop].
    rewrite (iteration_running self _ tk st Hrun). cbv zeta. fold st2.
    by rewrite (proj2 (capture_frame_raise self tk st2 msg) Hfail). }
  assert (spooled (trace (on_loop_error msg st2)) = spooled (trace st)) as Hsp.
  { cbn [on_loop_error with_ctl log trace st2]. by rewrite spooled_snoc, app_nil_r. }
  assert (errors (trace (on_loop_error msg st2)) = [progress_signal ("error: " +:+ msg)])
    as Herr.
  { cbn [on_loop_error with_ctl log trace st2].
    rewrite errors_snoc, is_error_error.
    unfold capture in Hpre. apply spinning_errors in Hpre. by rewrite Hpre. }
  destruct (run_returns self e _ m _ Hfps Hcap) as (Hret & I & _).
  exists (on_loop_error msg st2).
  split; [done |]. split; [done |]. split; [done |].
  split; [done |]. split; [done |]. split.
  { by rewrite Hret, after_loop_spooled. }
  split.
  - intros Hnil.
    rewrite Hret, (after_loop_no_frames self e (on_loop_error msg st2) Hnil).
    eexists. split; [reflexivity |]. cbn [log with_fs trace fs].
    split; [by rewrite <- app_assoc |]. split; [apply final_result_finished |].
    split; [| apply rmtree_inside, inside_pjoin].
    intros p Hp. by apply rmtree_inside.
  - intros Hlen Hm.
    destruct (session_ends self e _ m _ Hfps Hcap Hlen Hm)
      as (st' & Hend & Href & _ & _ & Hg & Hrm & He).
    exists st'. split; [done |]. split; [by rewrite He |].
    split; [by rewrite Hsp in Hg |]. split; [done |]. split.
    + intros Hloc. apply Href. destruct (configured self) eqn:Hc.
      * destruct Hloc as [? | Hf]; [done |]. by apply reference_failed.
      * by apply reference_local.
    + intros r kvs u Hc Hp Hs Hj Hv Hu. apply Href.
      apply (reference_delivered self e _ r kvs); try done.
      cbn. by rewrite (proj2 (String.eqb_neq _ _) Hu).
Qed.

Lemma capture_failure_ends_capture_witness :
  ∃ st1, capture Demo.local_recorder Demo.one_frame_then_failure ∅ = Exited st1 ∧
    trace st1 = trace Demo.one_frame_state
                ++ [progress_signal ("error: " +:+ "XGetImage() failed")] ∧
    errors (trace st1) = [progress_signal ("error: " +:+ "XGetImage() failed")] ∧
    frame_paths st1 = frame_paths Demo.one_frame_state ∧
    fs st1 = fs Demo.one_frame_state ∧
    spooled (trace (outcome_state
               (run Demo.local_recorder Demo.timed_out Demo.one_frame_then_failure ∅)))
      = spooled (trace Demo.one_frame_state) ∧
    (frame_paths Demo.one_frame_state = [] →
       ∃ st', run Demo.local_recorder Demo.timed_out Demo.one_frame_then_failure ∅
                = Returned st' ∧
         trace st' = trace st1 ++ [progress_signal "no_frames";
                                   finished_signal (Py.VStr "")] ∧
         final_result (trace st') = Some (Py.VStr "") ∧
         (∀ p, PyStr.inside (tmpdir Demo.local_recorder) p = true → fs st' !! p = None) ∧
         fs st' !! out_gif Demo.local_recorder Demo.timed_out = None) ∧
    (1 ≤ length (frame_paths Demo.one_frame_state) →
     mimsave_raises Demo.timed_out = None →
       ∃ st', (run Demo.local_recorder Demo.timed_out Demo.one_frame_then_failure ∅
                 = Returned st'
               ∨ ∃ msg', run Demo.local_recorder Demo.timed_out
                             Demo.one_frame_then_failure ∅ = Uncaught st' msg') ∧
         errors (trace st') = [progress_signal ("error: " +:+ "XGetImage() failed")] ∧
         fs st' !! out_gif Demo.local_recorder Demo.timed_out =
           Some (Gif (spooled (trace Demo.one_frame_state)).*2 (fps Demo.local_recorder)) ∧
         (∀ p, p ∈ frame_paths Demo.one_frame_state → fs st' !! p = None) ∧
         (configured Demo.local_recorder = false ∨ delivery_fails (post Demo.timed_out) →
            run Demo.local_recorder Demo.timed_out Demo.one_frame_then_failure ∅
              = Returned st' ∧
            final_result (trace st') =
              Some (Py.VStr (out_gif Demo.local_recorder Demo.timed_out))) ∧
         (∀ r kvs u,
            configured Demo.local_recorder = true →
            post Demo.timed_out = PostReturns r → status_code r = 200%Z →
            json r = Some (Py.VDict kvs) →
            Py.dict_find kvs "url" = Some (Py.VStr u) → u ≠ "" →
            run Demo.local_recorder Demo.timed_out Demo.one_frame_then_failure ∅
              = Returned st' ∧
            final_result (trace st') = Some (Py.VStr u))).
Proof.
  apply (capture_failure_ends_capture
           Demo.local_recorder Demo.timed_out [Demo.ok_tick 1 0 (1 # 100)]
           Demo.grab_fails_tick [Demo.ok_tick 2 (1 # 10) (3 # 10)] ∅
           Demo.one_frame_state "XGetImage() failed").
  - by split.
  - vm_compute. reflexivity.
  - split; reflexivity.
  - reflexivity.
Defined.

(** C6: while the thread is paused and neither [resume()] nor [stop()]
    arrives, the loop keeps polling and captures nothing: after any number
    of passes the frame list, the frame counter, the files and the spooled
    frames are what they were, and every pass has slept 0.05 s. The loop
    is still running and still paused at the end of the window. *)
Theorem paused_captures_nothing
    (self : RecorderThread) (frame_interval : Q) (sched : list tick) (st : state) :
  _pause (ctl st) = true → _stop (ctl st) = false →
  Forall no_resume_no_stop sched →
  ∃ st', capture_loop self frame_interval sched st = Spinning st' ∧
    ctl st' = ctl st ∧
    frame_paths st' = frame_paths st ∧ frame_num st' = frame_num st ∧
    length (spooled (trace st')) = length (spooled (trace st)) ∧
    spooled (trace st') = spooled (trace st) ∧ fs st' = fs st ∧
    sleeps (trace st') = sleeps (trace st) ++ replicate (length sched) (1 # 20)%Q.
Proof.
  intros Hp Hs Hq. revert st Hp Hs.
  induction Hq as [|tk rest Htk _ IH]; intros st Hp Hs.
  - exists st. cbn [capture_loop length replicate]. by rewrite app_nil_r.
  - cbn [capture_loop]. rewrite (iteration_paused self _ tk st Hp Hs Htk).
    destruct (IH (sleep (1 # 20) st) Hp Hs)
      as (st' & Hloop & Hc & Hfp & Hfn & Hlen & Hsp & Hfs & Hsl).
    exists st'. rewrite Hloop, Hc, Hfp, Hfn, Hlen, Hsp, Hfs, Hsl.
    cbn [sleep log trace ctl frame_paths frame_num fs].
    rewrite spooled_snoc, sleeps_snoc, app_nil_r. cbn [slept_secs option_list length replicate].
    by rewrite <- app_assoc.
Qed.

Lemma paused_captures_nothing_witness :
  ∃ st', capture_loop Demo.local_recorder (1 # 10) Demo.pause_window Demo.paused_state
           = Spinning st' ∧
    ctl st' = ctl Demo.paused_state ∧
    frame_paths st' = frame_paths Demo.paused_state ∧
    frame_num st' = frame_num Demo.paused_state ∧
    length (spooled (trace st')) = length (spooled (trace Demo.paused_state)) ∧
    spooled (trace st') = spooled (trace Demo.paused_state) ∧
    fs st' = fs Demo.paused_state ∧
    sleeps (trace st') =
      sleeps (trace Demo.paused_state) ++ replicate (length Demo.pause_window) (1 # 20)%Q.
Proof.
  apply (paused_captures_nothing Demo.local_recorder (1 # 10) Demo.pause_window
           Demo.paused_state).
  - reflexivity.
  - reflexivity.
  - repeat constructor.
Defined.

(** C7: [stop()] is idempotent, on the flags and through the GUI's
    [on_stop]; when the session is not Running or Paused (there is no
    recorder, or its stop flag is already set, as it is in every state in
    which the loop has been left) it changes nothing. *)
Theorem stop_idempotent (recorder : option flags) :
  on_stop (on_stop recorder) = on_stop recorder ∧
  (∀ f, stop (stop f) = stop f) ∧
  (session_active recorder = false → on_stop recorder = recorder) ∧
  (∀ self frame_interval sched st st',
     capture_loop self frame_interval sched st = Exited st' →
     session_active (Some (ctl st')) = false ∧ stop (ctl st') = ctl st').
Proof.
  split; [| split; [| split]].
  - by destruct recorder.
  - reflexivity.
  - destruct recorder as [[p s]|]; [|done]. simpl.
    by intros ->%negb_false_iff.
  - intros self frame_interval sched st st' H.
    apply exited_stopped in H. split.
    + simpl. by rewrite H.
    + destruct (ctl st') as [p s]. simpl in *. by subst.
Qed.

Lemma stop_idempotent_witness :
  on_stop (Some {| _pause := true; _stop := true |})
  = Some {| _pause := true; _stop := true |}.
Proof.
  apply (proj1 (proj2 (proj2 (stop_idempotent (Some {| _pause := true; _stop := true |}))))).
  reflexivity.
Defined.

(** C8, as the spec has it, fails: an answer with status 201 and a [url]
    member is a 2xx answer, and the session still falls back to the local
    path of the GIF. *)
Lemma created_201_is_not_delivered :
  capture Demo.remote_recorder Demo.two_frames ∅ = Exited Demo.two_frames_remote_exit ∧
  configured Demo.remote_recorder = true ∧
  post (Demo.answer 201 [("url", Py.VStr "http://store/x.gif")]) =
    PostReturns {| status_code := 201;
                   json := Some (Py.VDict [("url", Py.VStr "http://store/x.gif")]) |} ∧
  ∃ st', run Demo.remote_recorder (Demo.answer 201 [("url", Py.VStr "http://store/x.gif")])
             Demo.two_frames ∅ = Returned st' ∧
    final_result (trace st') = Some (Py.VStr Demo.gif) ∧
    final_result (trace st') ≠ Some (Py.VStr "http://store/x.gif").
Proof.
  split; [vm_compute; reflexivity |].
  split; [reflexivity |]. split; [reflexivity |].
  exists Samples.created_201_end. split; [vm_compute; reflexivity |].
  split; [vm_compute; reflexivity | vm_compute; discriminate].
Qed.

(** C8, amended: in a session with a delivery target configured and the
    GIF assembled, a request that raises and every status other than 200
    count as failure, and the result of the session is then the local
    path of the GIF; on a 200 answer whose body is a JSON object with a
    [url] member that is a non-empty string, the delivery succeeds and
    the result of the session is that url. *)
Theorem delivery_needs_status_200
    (self : RecorderThread) (e : env) (sched : list tick)
    (m : gmap string file) (st : state) :
  starts self e → capture self sched m = Exited st →
  1 ≤ length (frame_paths st) → mimsave_raises e = None →
  configured self = true →
  (delivery_fails (post e) →
     ∃ st', run self e sched m = Returned st' ∧
       final_result (trace st') = Some (Py.VStr (out_gif self e))) ∧
  (∀ r kvs u,
     post e = PostReturns r → status_code r = 200%Z →
     json r = Some (Py.VDict kvs) →
     Py.dict_find kvs "url" = Some (Py.VStr u) → u ≠ "" →
     ∃ st', run self e sched m = Returned st' ∧
       final_result (trace st') = Some (Py.VStr u)).
Proof.
  intros Hfps Hcap Hlen Hm Hcfg. split.
  - intros Hfail.
    destruct (session_assembled self e sched m st (out_gif self e) Hfps Hcap Hlen Hm
                (reference_failed self e st Hcfg Hfail))
      as (st' & Hrun & Hres & _).
    by exists st'.
  - intros r kvs u Hp Hs Hj Hv Hu.
    assert (Py.truthy (Py.VStr u) = true) as Ht
      by (cbn; by rewrite (proj2 (String.eqb_neq _ _) Hu)).
    destruct (session_assembled self e sched m st u Hfps Hcap Hlen Hm
                (reference_delivered self e st r kvs _ Hcfg Hp Hs Hj Hv Ht))
      as (st' & Hrun & Hres & _).
    by exists st'.
Qed.

Lemma delivery_needs_status_200_witness :
  (delivery_fails (post (Demo.answer 200 [("url", Py.VStr "http://store/x.gif")])) →
     ∃ st', run Demo.remote_recorder
                (Demo.answer 200 [("url", Py.VStr "http://store/x.gif")])
                Demo.two_frames ∅ = Returned st' ∧
       final_result (trace st') =
         Some (Py.VStr (out_gif Demo.remote_recorder
                          (Demo.answer 200 [("url", Py.VStr "http://store/x.gif")])))) ∧
  (∀ r kvs u,
     post (Demo.answer 200 [("url", Py.VStr "http://store/x.gif")]) = PostReturns r →
     status_code r = 200%Z →
     json r = Some (Py.VDict kvs) →
     Py.dict_find kvs "url" = Some (Py.VStr u) → u ≠ "" →
     ∃ st', run Demo.remote_recorder
                (Demo.answer 200 [("url", Py.VStr "http://store/x.gif")])
                Demo.two_frames ∅ = Returned st' ∧
       final_result (trace st') = Some (Py.VStr u)).
Proof.
  apply (delivery_needs_status_200 Demo.remote_recorder
           (Demo.answer 200 [("url", Py.VStr "http://store/x.gif")])
           Demo.two_frames ∅ Demo.two_frames_remote_exit).
  - by split.
  - vm_compute. reflexivity.
  - vm_compute. lia.
  - reflexivity.
  - reflexivity.
Defined.

(** One pass that grabs and saves its frame, at any interval. *)
Lemma iteration_sleeps (self : RecorderThread) (frame_interval : Q)
    (tk : tick) (st : state) :
  attempts_capture tk st → capture_failure self tk = None →
  let elapsed := (clock_t1 tk - clock_t0 tk)%Q in
  ∃ st', iteration self frame_interval tk st = Next st' ∧
    frame_num st' = frame_num st + 1 ∧
    (total_sleep (trace st') == total_sleep (trace st) + Qmax 0 (frame_interval - elapsed))%Q ∧
    ((elapsed < frame_interval)%Q →
       sleeps (trace st') = sleeps (trace st) ++ [(frame_interval - elapsed)%Q]) ∧
    ((frame_interval <= elapsed)%Q → sleeps (trace st') = sleeps (trace st)).
Proof.
  intros Hrun Hok el. set (fi := frame_interval).
  rewrite (iteration_running self fi tk st Hrun). cbv zeta.
  set (st2 := with_ctl (flags_at_pause_test tk st) st).
  destruct (capture_frame_returns self tk st2 Hok) as [st3 Hcap]. rewrite Hcap.
  apply capture_frame_ok in Hcap as (s & _ & _ & ->).
  fold el. destruct (Qltb 0 (fi - el)) eqn:E.
  - apply Qltb_lt in E. eexists. split; [done |].
    cbn [sleep log trace frame_num st2 with_ctl].
    split; [done |]. split; [| split].
    + rewrite total_sleep_snoc. unfold total_sleep. rewrite sleeps_snoc, app_nil_r.
      rewrite Q.max_r by (by apply Qlt_le_weak). reflexivity.
    + intros _. by rewrite !sleeps_snoc, app_nil_r.
    + intros H. lra.
  - apply Qltb_ge in E. eexists. split; [done |].
    cbn [sleep log trace frame_num st2 with_ctl].
    split; [done |]. split; [| split].
    + unfold total_sleep. rewrite sleeps_snoc, app_nil_r.
      rewrite Q.max_l by done. ring.
    + intros H. lra.
    + intros _. by rewrite sleeps_snoc, app_nil_r.
Qed.

(** C9: a pass of [run]'s loop that grabs and saves its frame then sleeps
    for max(0, 1/fps - elapsed), where 1/fps is the frame interval [run]
    computes from the recorder's [fps] and elapsed is the difference of
    the two clock readings of the pass: it sleeps the remainder when that
    is positive and makes no call to sleep when elapsed >= 1/fps. The
    loop is then still running, one frame further. *)
Theorem sleeps_the_remainder
    (self : RecorderThread) (e : env) (pre : list tick) (tk : tick)
    (m : gmap string file) (st : state) :
  starts self e → capture self pre m = Spinning st →
  attempts_capture tk st → capture_failure self tk = None →
  let elapsed := (clock_t1 tk - clock_t0 tk)%Q in
  ∃ st', capture self (pre ++ [tk]) m = Spinning st' ∧
    run self e (pre ++ [tk]) m = InLoop st' ∧
    frame_num st' = frame_num st + 1 ∧
    (total_sleep (trace st') ==
       total_sleep (trace st) + Qmax 0 (1 / inject_Z (fps self) - elapsed))%Q ∧
    ((elapsed < 1 / inject_Z (fps self))%Q →
       sleeps (trace st') = sleeps (trace st) ++ [(1 / inject_Z (fps self) - elapsed)%Q]) ∧
    ((1 / inject_Z (fps self) <= elapsed)%Q → sleeps (trace st') = sleeps (trace st)).
Proof.
  intros [Hmss Hfps] Hpre Hrun Hok el.
  destruct (iteration_sleeps self (1 / inject_Z (fps self))%Q tk st Hrun Hok)
    as (st' & Hit & Hrest).
  assert (capture self (pre ++ [tk]) m = Spinning st') as Hcap.
  { unfold capture in *. rewrite capture_loop_app, Hpre. cbn [capture_loop].
    by rewrite Hit. }
  exists st'. split; [done |]. split; [| exact Hrest].
  unfold run. by rewrite Hmss, (proj2 (Z.eqb_neq _ _) Hfps), Hcap.
Qed.

Lemma sleeps_the_remainder_witness :
  let elapsed := (clock_t1 (Demo.ok_tick 2 (1 # 10) (3 # 20))
                  - clock_t0 (Demo.ok_tick 2 (1 # 10) (3 # 20)))%Q in
  ∃ st', capture Demo.local_recorder
           ([Demo.ok_tick 1 0 (1 # 100)] ++ [Demo.ok_tick 2 (1 # 10) (3 # 20)]) ∅
           = Spinning st' ∧
    run Demo.local_recorder Demo.timed_out
        ([Demo.ok_tick 1 0 (1 # 100)] ++ [Demo.ok_tick 2 (1 # 10) (3 # 20)]) ∅
      = InLoop st' ∧
    frame_num st' = frame_num Demo.one_frame_state + 1 ∧
    (total_sleep (trace st') ==
       total_sleep (trace Demo.one_frame_state)
       + Qmax 0 (1 / inject_Z (fps Demo.local_recorder) - elapsed))%Q ∧
    ((elapsed < 1 / inject_Z (fps Demo.local_recorder))%Q →
       sleeps (trace st') =
         sleeps (trace Demo.one_frame_state)
         ++ [(1 / inject_Z (fps Demo.local_recorder) - elapsed)%Q]) ∧
    ((1 / inject_Z (fps Demo.local_recorder) <= elapsed)%Q →
       sleeps (trace st') = sleeps (trace Demo.one_frame_state)).
Proof.
  apply (sleeps_the_remainder Demo.local_recorder Demo.timed_out
           [Demo.ok_tick 1 0 (1 # 100)] (Demo.ok_tick 2 (1 # 10) (3 # 20)) ∅
           Demo.one_frame_state).
  - by split.
  - vm_compute. reflexivity.
  - split; reflexivity.
  - reflexivity.
Defined.

(** * Further properties of the recorder *)

Section RecorderFacts.

Variable self : RecorderThread.

Lemma omap_snoc {A B : Type} (f : A → option B) (l : list A) (x : A) :
  omap f (l ++ [x]) = omap f l ++ option_list (f x).
Proof. rewrite omap_app. simpl. by destruct (f x). Qed.

Lemma rstrip_slash_cons (c : ascii) (r : string) :
  PyStr.rstrip_slash (String c r) =
    match PyStr.rstrip_slash r with
    | EmptyString => if Ascii.eqb c "/" then EmptyString else String c EmptyString
    | String d r' => String c (String d r')
    end.
Proof. reflexivity. Qed.

Lemma rstrip_slash_no_trailing (s : string) :
  ends_with_slash (PyStr.rstrip_slash s) = false.
Proof.
  induction s as [|c r IH]; [done |].
  rewrite rstrip_slash_cons. destruct (PyStr.rstrip_slash r) as [|d r'].
  - destruct (Ascii.eqb c "/") eqn:E; [done |]. simpl. exact E.
  - exact IH.
Qed.

Lemma rstrip_slash_strips (s : string) :
  ∃ k, s = PyStr.rstrip_slash s +:+ slashes k.
Proof.
  induction s as [|c r [k IH]]; [by exists 0 |].
  rewrite rstrip_slash_cons. destruct (PyStr.rstrip_slash r) as [|d r'].
  - destruct (Ascii.eqb c "/") eqn:E.
    + apply Ascii.eqb_eq in E as ->. exists (S k). simpl. by rewrite IH at 1.
    + exists k. rewrite IH at 1. reflexivity.
  - exists k. rewrite IH at 1. reflexivity.
Qed.

(** What one pass adds to the trace. *)
Lemma iteration_events (P : Q → Prop) (frame_interval : Q) (tk : tick) (st : state) :
  P (1 # 20)%Q →
  (Qltb 0 (frame_interval - (clock_t1 tk - clock_t0 tk)) = true →
   P (frame_interval - (clock_t1 tk - clock_t0 tk))%Q) →
  ∃ evs, Forall (loop_event P) evs ∧
    match iteration self frame_interval tk st with
    | Next st' | Break st' => trace st' = trace st ++ evs
    end.
Proof.
  intros Hpoll Hrest. unfold iteration.
  set (st1 := with_ctl _ st).
  destruct (_stop (ctl st1)).
  { exists []. split; [done | by rewrite app_nil_r]. }
  set (st2 := with_ctl _ st1).
  destruct (_pause (ctl st2)).
  { exists [slept (1 # 20)]. split; [by repeat constructor | done]. }
  destruct (capture_frame self tk st2) as [st3|msg] eqn:E.
  - apply capture_frame_ok in E as (s & _ & _ & ->).
    destruct (Qltb 0 _) eqn:El.
    + eexists [saved _ _; slept _]. split.
      * repeat constructor. by apply Hrest.
      * cbn [sleep log trace]. by rewrite <- app_assoc.
    + eexists [saved _ _]. split; [by repeat constructor | done].
  - exists [progress_signal ("error: " +:+ msg)]. split; [|done].
    repeat constructor. apply (prefix_app "error: " msg).
Qed.

Lemma capture_loop_events (P : Q → Prop) (frame_interval : Q)
    (sched : list tick) (st : state) :
  P (1 # 20)%Q →
  Forall (fun tk => Qltb 0 (frame_interval - (clock_t1 tk - clock_t0 tk)) = true →
                    P (frame_interval - (clock_t1 tk - clock_t0 tk))%Q) sched →
  ∃ evs, Forall (loop_event P) evs ∧
    trace (loop_state (capture_loop self frame_interval sched st)) = trace st ++ evs.
Proof.
  intros Hpoll Hs. revert st. induction Hs as [|tk rest Htk _ IH]; intros st.
  - exists []. split; [done | by rewrite app_nil_r].
  - cbn [capture_loop].
    destruct (iteration_events P frame_interval tk st Hpoll Htk) as (evs & Hevs & Htr).
    destruct (iteration self frame_interval tk st) as [st1|st1].
    + destruct (IH st1) as (evs' & Hevs' & Htr').
      exists (evs ++ evs'). split; [by apply Forall_app |].
      by rewrite Htr', Htr, app_assoc.
    + by exists evs.
Qed.

Lemma loop_events_quiet (P : Q → Prop) (evs : list event) :
  Forall (loop_event P) evs →
  posts evs = [] ∧ finished_values evs = [] ∧ Forall P (sleeps evs).
Proof.
  induction 1 as [|ev evs Hev _ (IH1 & IH2 & IH3)]; [done |].
  unfold posts, finished_values, sleeps in *.
  destruct ev; cbn in *; rewrite ?IH1, ?IH2; try done.
  repeat split; try done. by constructor.
Qed.

Variable e : env.

(** What the upload stage adds to the trace: no final signal and at most
    one request. *)
Lemma upload_trace (out : string) (st : state) :
  ∃ evs, trace (upload self e out st).2 = trace st ++ evs ∧
    finished_values evs = [] ∧
    (posts evs = [] ∨
     ∃ target, server_url self = Some target ∧
       posts evs = [PyStr.rstrip_slash target +:+ "/upload"]).
Proof.
  unfold upload.
  destruct (server_url self) as [[|c u]|] eqn:Hsrv.
  1,3: (exists []; rewrite app_nil_r; split; [done |]; split; [done | by left]).
  rewrite fs_log. destruct (fs st !! out).
  2:{ exists [progress_signal "uploading"]. split; [done |]. split; [done | by left]. }
  exists [progress_signal "uploading";
          posted (PyStr.rstrip_slash (String c u) +:+ "/upload")].
  split.
  { destruct (post e) as [pm|r]; [| destruct (status_code r =? 200)%Z;
                                    [destruct (json r) as [[]|] |]];
      cbn [snd log trace]; by rewrite <- app_assoc. }
  split; [done |]. right. by eexists.
Qed.

(** The trace of the stage after the loop. It sends at most one request
    and then either returns, the final signal with a string coming last,
    or dies at the final signal of a value that is no string. *)
Lemma after_loop_trace (st : state) :
  ∃ evs, finished_values evs = [] ∧
    (posts evs = [] ∨
     ∃ target, server_url self = Some target ∧
       posts evs = [PyStr.rstrip_slash target +:+ "/upload"]) ∧
    ((∃ st' s, after_loop self e st = Returned st' ∧
        trace st' = trace st ++ evs ++ [finished_signal (Py.VStr s)])
     ∨ (∃ st' msg, after_loop self e st = Uncaught st' msg ∧
          trace st' = trace st ++ evs ∧ ¬ url_is_text e)).
Proof.
  unfold after_loop.
  destruct (length (frame_paths st) =? 0)%nat.
  { exists [progress_signal "no_frames"]. split; [done |]. split; [by left |].
    left. eexists _, "". split; [reflexivity |].
    cbn [log with_fs trace]. by rewrite <- app_assoc. }
  destruct (mimsave e _ _ _ _) as [m0 [msg|]].
  { exists [progress_signal "assembling"; progress_signal ("error: " +:+ msg)].
    split; [done |]. split; [by left |].
    left. eexists _, "". split; [reflexivity |].
    cbn [log with_fs trace]. by rewrite <- !app_assoc. }
  set (st1 := with_fs m0 (log (progress_signal "assembling") st)).
  destruct (upload_trace (out_gif self e) st1) as (evs & Htr & Hf & Hp).
  pose proof (upload_text self e (out_gif self e) st1) as Htxt.
  destruct (upload self e (out_gif self e) st1) as [url st2]. cbn [fst snd] in *.
  exists (progress_signal "assembling" :: evs).
  split; [exact Hf |]. split; [exact Hp |].
  destruct (emit_finished_cases
              (if Py.truthy url then url else Py.VStr (out_gif self e))
              (with_fs (remove_all (frame_paths st2) (fs st2)) st2))
    as [(s & Hv & ->) | (Hv & msg & ->)].
  - left. eexists _, s. split; [reflexivity |].
    cbn [log with_fs trace]. rewrite Htr, Hv. unfold st1.
    cbn [log with_fs trace]. by rewrite <- !app_assoc.
  - right. eexists _, msg. split; [reflexivity |]. split.
    + cbn [log with_fs trace]. rewrite Htr. unfold st1.
      cbn [log with_fs trace]. by rewrite <- !app_assoc.
    + intros Htext. destruct (Htxt Htext) as [s Hs]. by destruct (Hv s).
Qed.

End RecorderFacts.

Section RecorderSessions.

Variable self : RecorderThread.

(** The trace of the loop: [recording] first, then only saves, sleeps of
    positive length and error reports. *)
Lemma capture_trace (sched : list tick) (m : gmap string file) :
  ∃ evs, Forall (loop_event (fun d => (0 < d)%Q)) evs ∧
    trace (loop_state (capture self sched m)) = progress_signal "recording" :: evs.
Proof.
  unfold capture.
  destruct (capture_loop_events self (fun d => (0 < d)%Q) (1 / inject_Z (fps self))%Q
              sched (log (progress_signal "recording") (initial m)))
    as (evs & Hevs & Htr).
  - done.
  - apply Forall_forall. intros tk _ H. by apply Qltb_lt.
  - by exists evs.
Qed.

Lemma apply_calls_stop_sticky (cs : list call) (f : flags) :
  _stop f = true → _stop (apply_calls cs f) = true.
Proof.
  unfold apply_calls. revert f.
  induction cs as [|c cs IH]; intros f Hf; [done |].
  simpl. apply IH. by destruct c.
Qed.

End RecorderSessions.

(** X1: when the encoder raises, the session ends with the empty result
    after one error report. No request is sent and nothing is removed:
    every file but the one at the GIF path is what it was, every spooled
    frame is still on disk, and at the GIF path the encoder may have left
    a truncated file. *)
Theorem assembly_failure_keeps_spool
    (self : RecorderThread) (e : env) (sched : list tick)
    (m : gmap string file) (st : state) (msg : string) :
  starts self e → capture self sched m = Exited st →
  1 ≤ length (frame_paths st) → mimsave_raises e = Some msg →
  ∃ st', run self e sched m = Returned st' ∧
    trace st' = trace st ++ [progress_signal "assembling";
                             progress_signal ("error: " +:+ msg);
                             finished_signal (Py.VStr "")] ∧
    final_result (trace st') = Some (Py.VStr "") ∧
    posts (trace st') = [] ∧
    (∀ p, p ≠ out_gif self e → fs st' !! p = fs st !! p) ∧
    fs st' !! out_gif self e =
      (if mimsave_truncates e then Some Truncated else fs st !! out_gif self e) ∧
    (∀ p img, (p, img) ∈ spooled (trace st) → fs st' !! p = Some (Png img)).
Proof.
  intros Hst Hcap Hlen Hm.
  destruct (run_returns self e sched m st Hst Hcap) as (Hrun & I & _).
  rewrite (after_loop_encoder_raises self e st msg I Hlen Hm) in Hrun.
  eexists. split; [exact Hrun |].
  cbn [log with_fs trace fs]. rewrite <- !app_assoc. cbn [app].
  assert (∀ p, p ≠ out_gif self e →
            (if mimsave_truncates e
             then <[out_gif self e := Truncated]> (fs st) else fs st) !! p
            = fs st !! p) as Hother.
  { intros p Hp. destruct (mimsave_truncates e); [| done].
    by rewrite lookup_insert_ne. }
  split; [done |]. split.
  { change (trace st ++ [progress_signal "assembling";
                         progress_signal ("error: " +:+ msg);
                         finished_signal (Py.VStr "")])
      with (trace st ++ [progress_signal "assembling";
                         progress_signal ("error: " +:+ msg)]
                     ++ [finished_signal (Py.VStr "")]).
    rewrite app_assoc. apply final_result_finished. }
  split.
  { destruct (capture_trace self sched m) as (evs & Hevs & Htr).
    rewrite Hcap in Htr. cbn [loop_state] in Htr.
    apply loop_events_quiet in Hevs as (Hp & _ & _).
    rewrite Htr. unfold posts in *. rewrite omap_app. cbn. by rewrite Hp. }
  split; [exact Hother |]. split.
  { destruct (mimsave_truncates e); [| done]. apply lookup_insert_eq. }
  intros p img Hin. rewrite Hother.
  - destruct I as [_ _ _ I4]. rewrite Forall_forall in I4. exact (I4 _ Hin).
  - intros ->. apply (out_gif_not_frame self e st I).
    destruct I as [_ _ I3 _]. rewrite <- I3.
    apply list_elem_of_fmap. by exists (out_gif self e, img).
Qed.

Lemma assembly_failure_keeps_spool_witness :
  ∃ st', run Demo.local_recorder Samples.encoder_fails Demo.two_frames ∅ = Returned st' ∧
    trace st' = trace Demo.two_frames_exit
                ++ [progress_signal "assembling";
                    progress_signal ("error: " +:+ "No space left on device");
                    finished_signal (Py.VStr "")] ∧
    final_result (trace st') = Some (Py.VStr "") ∧
    posts (trace st') = [] ∧
    (∀ p, p ≠ out_gif Demo.local_recorder Samples.encoder_fails →
          fs st' !! p = fs Demo.two_frames_exit !! p) ∧
    fs st' !! out_gif Demo.local_recorder Samples.encoder_fails =
      (if mimsave_truncates Samples.encoder_fails then Some Truncated
       else fs Demo.two_frames_exit !! out_gif Demo.local_recorder Samples.encoder_fails) ∧
    (∀ p img, (p, img) ∈ spooled (trace Demo.two_frames_exit) →
              fs st' !! p = Some (Png img)).
Proof.
  apply (assembly_failure_keeps_spool
           Demo.local_recorder Samples.encoder_fails Demo.two_frames ∅
           Demo.two_frames_exit "No space left on device").
  - by split.
  - vm_compute. reflexivity.
  - vm_compute. lia.
  - reflexivity.
Defined.

(** X2: without a delivery target ([server_url] is [None] or empty) no
    request is sent and nothing is announced but the assembly: the result
    is the local path of the GIF, the GIF is on disk and the frame files
    are removed. *)
Theorem local_only_session
    (self : RecorderThread) (e : env) (sched : list tick)
    (m : gmap string file) (st : state) :
  starts self e → capture self sched m = Exited st →
  1 ≤ length (frame_paths st) → mimsave_raises e = None →
  configured self = false →
  ∃ st', run self e sched m = Returned st' ∧
    trace st' = trace st ++ [progress_signal "assembling";
                             finished_signal (Py.VStr (out_gif self e))] ∧
    posts (trace st') = [] ∧
    fs st' !! out_gif self e = Some (Gif (spooled (trace st)).*2 (fps self)) ∧
    (∀ p, p ∈ frame_paths st → fs st' !! p = None).
Proof.
  intros Hst Hcap Hlen Hm Hcfg.
  destruct (session_assembled self e sched m st (out_gif self e) Hst Hcap Hlen Hm
              (reference_local self e st Hcfg))
    as (st' & Hrun & _ & _ & _ & Hg & Hrm & _).
  exists st'. split; [done |].
  destruct (run_returns self e sched m st Hst Hcap) as (Hrun' & I & _).
  rewrite Hrun', (after_loop_assembled self e st I Hlen Hm) in Hrun.
  rewrite (upload_local self e _ _ Hcfg) in Hrun.
  assert ((if Py.truthy (Py.VStr (out_gif self e))
           then Py.VStr (out_gif self e) else Py.VStr (out_gif self e))
          = Py.VStr (out_gif self e)) as Hif
    by (by destruct (Py.truthy _)).
  rewrite Hif in Hrun. cbn [emit_finished] in Hrun. injection Hrun as <-.
  cbn [log with_fs trace assembled fst] in *. rewrite <- !app_assoc. cbn [app].
  split; [done |]. split; [| by split].
  destruct (capture_trace self sched m) as (evs & Hevs & Htr).
  rewrite Hcap in Htr. cbn [loop_state] in Htr.
  apply loop_events_quiet in Hevs as (Hp & _ & _).
  rewrite Htr. unfold posts in *. rewrite omap_app. cbn. by rewrite Hp.
Qed.

Lemma local_only_session_witness :
  ∃ st', run Demo.local_recorder Demo.timed_out Demo.two_frames ∅ = Returned st' ∧
    trace st' = trace Demo.two_frames_exit
                ++ [progress_signal "assembling";
                    finished_signal (Py.VStr (out_gif Demo.local_recorder Demo.timed_out))] ∧
    posts (trace st') = [] ∧
    fs st' !! out_gif Demo.local_recorder Demo.timed_out =
      Some (Gif (spooled (trace Demo.two_frames_exit)).*2 (fps Demo.local_recorder)) ∧
    (∀ p, p ∈ frame_paths Demo.two_frames_exit → fs st' !! p = None).
Proof.
  apply (local_only_session
           Demo.local_recorder Demo.timed_out Demo.two_frames ∅ Demo.two_frames_exit).
  - by split.
  - vm_compute. reflexivity.
  - vm_compute. lia.
  - reflexivity.
  - reflexivity.
Defined.

(** X3: a session sends at most one request, and it goes to the server
    address with its trailing slashes removed, followed by [/upload].
    The session returns, or dies at its final signal when the store has
    answered with a url that is no string; the request has been sent by
    then. *)
Theorem at_most_one_request
    (self : RecorderThread) (e : env) (sched : list tick)
    (m : gmap string file) (st : state) :
  starts self e → capture self sched m = Exited st →
  ∃ st', (run self e sched m = Returned st'
          ∨ ∃ msg, run self e sched m = Uncaught st' msg) ∧
    (url_is_text e → run self e sched m = Returned st') ∧
    (posts (trace st') = [] ∨
     ∃ target k,
       server_url self = Some target ∧
       posts (trace st') = [PyStr.rstrip_slash target +:+ "/upload"] ∧
       target = PyStr.rstrip_slash target +:+ slashes k ∧
       ends_with_slash (PyStr.rstrip_slash target) = false).
Proof.
  intros Hst Hcap.
  destruct (run_returns self e sched m st Hst Hcap) as (Hrun & _ & _).
  destruct (capture_trace self sched m) as (evs & Hevs & Htr).
  rewrite Hcap in Htr. cbn [loop_state] in Htr.
  apply loop_events_quiet in Hevs as (Hp & _ & _).
  assert (posts (trace st) = []) as Hnone.
  { rewrite Htr. unfold posts in *. cbn. exact Hp. }
  destruct (after_loop_trace self e st) as (more & _ & Hpo & Hend).
  assert (∃ st', ((run self e sched m = Returned st'
                   ∨ ∃ msg, run self e sched m = Uncaught st' msg) ∧
                  (url_is_text e → run self e sched m = Returned st')) ∧
                 posts (trace st') = posts more) as (st' & Hout & Hposts).
  { rewrite Hrun.
    destruct Hend as [(st' & s & -> & Ht) | (st' & msg & -> & Ht & Hno)];
      exists st'; rewrite Ht; unfold posts in *;
      rewrite ?omap_app, Hnone; cbn; rewrite ?app_nil_r.
    - split; [| done]. split; [by left | done].
    - split; [| done]. split; [right; by exists msg | done]. }
  exists st'. destruct Hout as [Hout Htext]. split; [done |]. split; [done |].
  rewrite Hposts. destruct Hpo as [Hpo | (target & Hsrv & Hpo)].
  - by left.
  - right. destruct (rstrip_slash_strips target) as [k Hk].
    exists target, k. repeat split; try done.
    apply rstrip_slash_no_trailing.
Qed.

Lemma at_most_one_request_witness :
  ∃ st', (run Samples.slashed_recorder Demo.timed_out Demo.two_frames ∅ = Returned st'
          ∨ ∃ msg, run Samples.slashed_recorder Demo.timed_out Demo.two_frames ∅
                   = Uncaught st' msg) ∧
    (url_is_text Demo.timed_out →
     run Samples.slashed_recorder Demo.timed_out Demo.two_frames ∅ = Returned st') ∧
    (posts (trace st') = [] ∨
     ∃ target k,
       server_url Samples.slashed_recorder = Some target ∧
       posts (trace st') = [PyStr.rstrip_slash target +:+ "/upload"] ∧
       target = PyStr.rstrip_slash target +:+ slashes k ∧
       ends_with_slash (PyStr.rstrip_slash target) = false).
Proof.
  apply (at_most_one_request
           Samples.slashed_recorder Demo.timed_out Demo.two_frames ∅ Samples.slashed_exit).
  - by split.
  - vm_compute. reflexivity.
Defined.

(** X4: once a [stop()] has reached the loop's test, the session leaves
    the loop and comes to its end, its trace opening with [recording].
    Either [run] returns, and the trace closes with the one and only
    [finished_signal], which carries a string; or the store has answered
    with a url that is no string, [run] dies at the final signal and no
    [finished_signal] is emitted at all. With a store whose urls are
    strings the session always returns. *)
Theorem stop_completes_session
    (self : RecorderThread) (e : env) (sched : list tick) (m : gmap string file) :
  starts self e →
  Exists (fun tk => CallStop ∈ calls_before_stop_test tk) sched →
  ∃ st', head (trace st') = Some (progress_signal "recording") ∧
    ((∃ s, run self e sched m = Returned st' ∧
           last (trace st') = Some (finished_signal (Py.VStr s)) ∧
           finished_values (trace st') = [Py.VStr s])
     ∨ (∃ msg, run self e sched m = Uncaught st' msg ∧
               finished_values (trace st') = [] ∧ ¬ url_is_text e)) ∧
    (url_is_text e →
       ∃ s, run self e sched m = Returned st' ∧
            last (trace st') = Some (finished_signal (Py.VStr s)) ∧
            finished_values (trace st') = [Py.VStr s]).
Proof.
  intros Hst Hstop.
  destruct (stop_ends_loop self (1 / inject_Z (fps self))%Q sched
              (log (progress_signal "recording") (initial m)) Hstop) as [st Hcap].
  change (capture self sched m = Exited st) in Hcap.
  destruct (run_returns self e sched m st Hst Hcap) as (Hrun & _ & _).
  destruct (capture_trace self sched m) as (evs & Hevs & Htr).
  rewrite Hcap in Htr. cbn [loop_state] in Htr.
  apply loop_events_quiet in Hevs as (_ & Hf & _).
  assert (finished_values (trace st) = []) as Hnone.
  { rewrite Htr. unfold finished_values in *. cbn. exact Hf. }
  rewrite Hrun.
  destruct (after_loop_trace self e st) as (more & Hmore & _ & Hend).
  destruct Hend as [(st' & s & -> & Ht) | (st' & msg & -> & Ht & Hno)];
    exists st'; (split; [by rewrite Ht, Htr |]).
  - assert (last (trace st') = Some (finished_signal (Py.VStr s)) ∧
            finished_values (trace st') = [Py.VStr s]) as [Hl Hv].
    { rewrite Ht, app_assoc. split; [apply last_snoc |].
      unfold finished_values in *. rewrite !omap_app, Hnone, Hmore. done. }
    split; [left | intros _]; by exists s.
  - split; [| done]. right. exists msg. split; [done |]. split; [| done].
    rewrite Ht. unfold finished_values in *. by rewrite omap_app, Hnone, Hmore.
Qed.

Lemma stop_completes_session_witness :
  ∃ st', head (trace st') = Some (progress_signal "recording") ∧
    ((∃ s, run Demo.remote_recorder Demo.timed_out Demo.two_frames ∅ = Returned st' ∧
           last (trace st') = Some (finished_signal (Py.VStr s)) ∧
           finished_values (trace st') = [Py.VStr s])
     ∨ (∃ msg, run Demo.remote_recorder Demo.timed_out Demo.two_frames ∅
                 = Uncaught st' msg ∧
               finished_values (trace st') = [] ∧ ¬ url_is_text Demo.timed_out)) ∧
    (url_is_text Demo.timed_out →
       ∃ s, run Demo.remote_recorder Demo.timed_out Demo.two_frames ∅ = Returned st' ∧
            last (trace st') = Some (finished_signal (Py.VStr s)) ∧
            finished_values (trace st') = [Py.VStr s]).
Proof.
  apply (stop_completes_session Demo.remote_recorder Demo.timed_out Demo.two_frames ∅).
  - by split.
  - do 2 apply Exists_cons_tl. apply Exists_cons_hd. simpl. by left.
Defined.

(** X5: while the capture loop runs and at the moment it is left,
    whatever calls arrive, the spool has no gaps and no overwritten file:
    the frames saved so far are the files [frame_path 0], ...,
    [frame_path (frame_num - 1)], in that order, and each file still
    holds the image saved to it. (The stage after the loop removes the
    frame files again.) *)
Theorem spool_never_has_gaps
    (self : RecorderThread) (sched : list tick) (m : gmap string file) :
  let st := loop_state (capture self sched m) in
  frame_num st = length (spooled (trace st)) ∧
  frame_paths st = (spooled (trace st)).*1 ∧
  (spooled (trace st)).*1 = frame_path self <$> seq 0 (frame_num st) ∧
  (∀ p img, (p, img) ∈ spooled (trace st) → fs st !! p = Some (Png img)).
Proof.
  cbv zeta. unfold capture.
  pose proof (spool_inv_loop self (1 / inject_Z (fps self))%Q sched _
                (spool_inv_initial self m)) as I.
  set (o := capture_loop _ _ _ _) in *.
  assert (spool_inv self (loop_state o)) as [I1 I2 I3 I4] by (by destruct o).
  repeat split.
  - rewrite I1, <- I3. by rewrite length_fmap.
  - done.
  - by rewrite I3, I2 at 1.
  - intros p img Hin. rewrite Forall_forall in I4. exact (I4 _ Hin).
Qed.

(** X6: a stop is final. Once the stop flag is set, the next pass leaves
    the loop whatever calls arrive with it, [resume()] included, and
    nothing is captured, written or logged any more by the loop. *)
Theorem stop_is_final
    (self : RecorderThread) (frame_interval : Q) (tk : tick)
    (rest : list tick) (st : state) :
  _stop (ctl st) = true →
  ∃ st', capture_loop self frame_interval (tk :: rest) st = Exited st' ∧
    _stop (ctl st') = true ∧
    frame_paths st' = frame_paths st ∧ frame_num st' = frame_num st ∧
    fs st' = fs st ∧ trace st' = trace st.
Proof.
  intros Hs. cbn [capture_loop]. unfold iteration.
  pose proof (apply_calls_stop_sticky (calls_before_stop_test tk) (ctl st) Hs) as H.
  cbn [with_ctl ctl]. rewrite H. by eexists.
Qed.

Lemma stop_is_final_witness :
  ∃ st', capture_loop Demo.local_recorder (1 # 10)
           (Demo.call_tick [CallResume; CallPause; CallResume] :: Demo.two_frames)
           Samples.stopped_state = Exited st' ∧
    _stop (ctl st') = true ∧
    frame_paths st' = frame_paths Samples.stopped_state ∧
    frame_num st' = frame_num Samples.stopped_state ∧
    fs st' = fs Samples.stopped_state ∧ trace st' = trace Samples.stopped_state.
Proof.
  apply (stop_is_final Demo.local_recorder (1 # 10)
           (Demo.call_tick [CallResume; CallPause; CallResume]) Demo.two_frames
           Samples.stopped_state).
  reflexivity.
Defined.

(** X7: the loop never asks for a sleep of zero or negative length. *)
Theorem never_sleeps_nonpositive
    (self : RecorderThread) (sched : list tick) (m : gmap string file) :
  Forall (fun d => (0 < d)%Q) (sleeps (trace (loop_state (capture self sched m)))).
Proof.
  destruct (capture_trace self sched m) as (evs & Hevs & ->).
  apply loop_events_quiet in Hevs as (_ & _ & Hs). exact Hs.
Qed.

(** X8: with a clock that does not run backwards within a pass, no
    sleep of the loop is longer than the larger of the polling interval
    (0.05 s) and the frame interval (1/fps). *)
Theorem sleep_is_bounded
    (self : RecorderThread) (sched : list tick) (m : gmap string file) :
  Forall (fun tk => (clock_t0 tk <= clock_t1 tk)%Q) sched →
  Forall (fun d => (d <= Qmax (1 # 20) (1 / inject_Z (fps self)))%Q)
         (sleeps (trace (loop_state (capture self sched m)))).
Proof.
  intros Hclk. unfold capture.
  destruct (capture_loop_events self
              (fun d => (d <= Qmax (1 # 20) (1 / inject_Z (fps self)))%Q)
              (1 / inject_Z (fps self))%Q sched
              (log (progress_signal "recording") (initial m)))
    as (evs & Hevs & ->).
  - apply Q.le_max_l.
  - eapply Forall_impl; [exact Hclk |]. intros tk Ht _. simpl in Ht.
    eapply Qle_trans; [| apply Q.le_max_r]. lra.
  - apply loop_events_quiet in Hevs as (_ & _ & Hs).
    unfold sleeps in *. cbn. exact Hs.
Qed.

Lemma sleep_is_bounded_witness :
  Forall (fun d => (d <= Qmax (1 # 20) (1 / inject_Z (fps Demo.local_recorder)))%Q)
         (sleeps (trace (loop_state (capture Demo.local_recorder Demo.two_frames ∅)))).
Proof.
  apply (sleep_is_bounded Demo.local_recorder Demo.two_frames ∅).
  repeat constructor; vm_compute; discriminate.
Defined.

(** * The upload server *)

Section ServerFacts.

Variable suffix : string → string.

(** The reply and the storage after an upload that goes through. *)
Lemma upload_accepted (w : Server.world) (rq : Server.upload_request)
    (st : Server.storage) (f : Server.FileStorage) :
  Server.files_file rq = Some f → Server.part_filename f ≠ "" →
  Server.save_raises w = None → Server.meta_raises w = None →
  let filename := Server.uuid4 w +:+ suffix (Server.part_filename f) in
  Server.upload suffix w rq st =
    (Server.Json 200
       [("url", Py.VStr (PyStr.rstrip_slash (Server.host_url rq)
                         +:+ "/uploads/" +:+ filename))],
     {| Server.uploads := <[filename := Server.part_stream f]> (Server.uploads st);
        Server.meta := Server.meta st ++
          [{| Server.item_id := Server.uuid4 w;
              Server.item_name := Server.part_filename f;
              Server.item_filename := filename;
              Server.item_time := Server.strftime w;
              Server.item_url := "/uploads/" +:+ filename |}];
        Server.ads := Server.ads st |}).
Proof.
  intros Hf Hne Hs Hm. unfold Server.upload. rewrite Hf, Hs, Hm.
  by rewrite (proj2 (String.eqb_neq _ _) Hne).
Qed.


Lemma upload_linked (w : Server.world) (rq : Server.upload_request)
    (st : Server.storage) :
  Server.linked st →
  Server.linked (Server.upload suffix w rq st).2 ∧
  length (Server.meta (Server.upload suffix w rq st).2) ≤ S (length (Server.meta st)).
Proof.
  intros H. unfold Server.upload.
  destruct (Server.files_file rq) as [f|]; [| split; [done | simpl; lia]].
  destruct (String.eqb (Server.part_filename f) ""); [split; [done | simpl; lia] |].
  destruct (Server.save_raises w); [split; [done | simpl; lia] |].
  set (filename := Server.uuid4 w +:+ suffix (Server.part_filename f)).
  assert (Forall (fun it =>
             Server.item_url it = "/uploads/" +:+ Server.item_filename it ∧
             is_Some ((<[filename := Server.part_stream f]> (Server.uploads st))
                        !! Server.item_filename it)) (Server.meta st)) as Hold.
  { eapply Forall_impl; [exact H |]. intros it [Hu Hs]. split; [done |].
    unfold Server.uploaded_file in Hs.
    destruct (decide (filename = Server.item_filename it)) as [<-|Hne].
    - rewrite lookup_insert_eq. by eexists.
    - by rewrite lookup_insert_ne. }
  destruct (Server.meta_raises w); cbn [snd].
  - split; [exact Hold | simpl; lia].
  - split; [| simpl; rewrite length_app; simpl; lia].
    unfold Server.linked, Server.uploaded_file. cbn [Server.meta Server.uploads].
    apply Forall_app. split; [exact Hold |].
    apply Forall_singleton. cbn. split; [done |].
    rewrite lookup_insert_eq. by eexists.
Qed.

End ServerFacts.

(** X9: an upload that carries a named file and meets no I/O error is
    answered with status 200 and the url [<host>/uploads/<uuid><suffix>],
    host taken without trailing slashes. Fetching that name then returns
    the very file that was sent, every other stored file is as before,
    and the gallery shows the new entry first, ahead of the old ones. *)
Theorem upload_round_trip
    (suffix : string → string) (w : Server.world) (rq : Server.upload_request)
    (st : Server.storage) (f : Server.FileStorage) :
  Server.files_file rq = Some f → Server.part_filename f ≠ "" →
  Server.save_raises w = None → Server.meta_raises w = None →
  let filename := Server.uuid4 w +:+ suffix (Server.part_filename f) in
  let st' := (Server.upload suffix w rq st).2 in
  (Server.upload suffix w rq st).1 =
    Server.Json 200 [("url", Py.VStr (PyStr.rstrip_slash (Server.host_url rq)
                                      +:+ "/uploads/" +:+ filename))] ∧
  Server.uploaded_file filename st' = Some (Server.part_stream f) ∧
  (∀ other, other ≠ filename →
     Server.uploaded_file other st' = Server.uploaded_file other st) ∧
  ∃ it, (Server.index st').1 = it :: (Server.index st).1 ∧
    Server.item_name it = Server.part_filename f ∧
    Server.item_filename it = filename ∧
    Server.item_url it = "/uploads/" +:+ filename.
Proof.
  intros Hf Hne Hs Hm filename st'. subst st'.
  rewrite (upload_accepted suffix w rq st f Hf Hne Hs Hm). cbn [fst snd].
  unfold Server.uploaded_file, Server.index. cbn [Server.uploads Server.meta fst].
  split; [done |]. split; [apply lookup_insert_eq |]. split.
  - intros other Ho. by apply lookup_insert_ne.
  - eexists. rewrite rev_unit. by repeat split.
Qed.

Lemma upload_round_trip_witness :
  let filename := Server.uuid4 ServerSamples.quiet
                  +:+ ServerSamples.dot_gif "recording_1700000000.gif" in
  let st' := (Server.upload ServerSamples.dot_gif ServerSamples.quiet
                ServerSamples.gif_request Server.empty).2 in
  (Server.upload ServerSamples.dot_gif ServerSamples.quiet
     ServerSamples.gif_request Server.empty).1 =
    Server.Json 200
      [("url", Py.VStr (PyStr.rstrip_slash (Server.host_url ServerSamples.gif_request)
                        +:+ "/uploads/" +:+ filename))] ∧
  Server.uploaded_file filename st' = Some ServerSamples.the_gif ∧
  (∀ other, other ≠ filename →
     Server.uploaded_file other st' = Server.uploaded_file other Server.empty) ∧
  ∃ it, (Server.index st').1 = it :: (Server.index Server.empty).1 ∧
    Server.item_name it = "recording_1700000000.gif" ∧
    Server.item_filename it = filename ∧
    Server.item_url it = "/uploads/" +:+ filename.
Proof.
  apply (upload_round_trip ServerSamples.dot_gif ServerSamples.quiet
           ServerSamples.gif_request Server.empty
           {| Server.part_filename := "recording_1700000000.gif";
              Server.part_stream := ServerSamples.the_gif |}).
  - reflexivity.
  - discriminate.
  - reflexivity.
  - reflexivity.
Defined.

(** X10: after any run of upload requests on an empty server, accepted
    or refused, every gallery entry has the url [/uploads/<filename>] of
    a file the server can serve, and there are no more entries than
    requests. *)
Theorem gallery_links_resolve
    (suffix : string → string) (rqs : list (Server.world * Server.upload_request)) :
  let st := Server.serve suffix rqs Server.empty in
  Forall (fun it => Server.item_url it = "/uploads/" +:+ Server.item_filename it ∧
                    is_Some (Server.uploaded_file (Server.item_filename it) st))
         (Server.index st).1 ∧
  length (Server.index st).1 ≤ length rqs.
Proof.
  cbv zeta.
  assert (∀ st, Server.linked st →
            Server.linked (Server.serve suffix rqs st) ∧
            length (Server.meta (Server.serve suffix rqs st))
              ≤ length rqs + length (Server.meta st)) as H.
  { induction rqs as [|[w rq] rest IH]; intros st Hst; [split; [done | simpl; lia] |].
    cbn [Server.serve].
    destruct (upload_linked suffix w rq st Hst) as [Hl Hn].
    destruct (IH _ Hl) as [Hl' Hn']. split; [done | simpl; lia]. }
  destruct (H Server.empty) as [Hl Hn]; [by constructor |].
  unfold Server.index. cbn [fst]. split.
  - by apply List.Forall_rev.
  - rewrite length_rev. simpl in Hn. lia.
Qed.



(** X12: recorder and server together. When the request of a session
    reaches this server with the assembled GIF under a non-empty file
    name and the server meets no I/O error, the session's result is the
    url [<host>/uploads/<uuid><suffix>], and the server serves under
    that name exactly the GIF the recorder assembled and still has on
    disk. *)
Theorem served_session_end_to_end
    (suffix : string → string) (w : Server.world) (rq : Server.upload_request)
    (srv : Server.storage) (fname : string)
    (self : RecorderThread) (e : env) (sched : list tick)
    (m : gmap string file) (st : state) :
  starts self e → capture self sched m = Exited st →
  1 ≤ length (frame_paths st) → mimsave_raises e = None →
  configured self = true →
  Server.files_file rq =
    Some {| Server.part_filename := fname;
            Server.part_stream := Gif (spooled (trace st)).*2 (fps self) |} →
  fname ≠ "" →
  Server.save_raises w = None → Server.meta_raises w = None →
  post e = Server.as_post_result (Server.upload suffix w rq srv).1 →
  let filename := Server.uuid4 w +:+ suffix fname in
  ∃ st', run self e sched m = Returned st' ∧
    final_result (trace st') =
      Some (Py.VStr (PyStr.rstrip_slash (Server.host_url rq)
                     +:+ "/uploads/" +:+ filename)) ∧
    Server.uploaded_file filename (Server.upload suffix w rq srv).2
      = fs st' !! out_gif self e ∧
    fs st' !! out_gif self e = Some (Gif (spooled (trace st)).*2 (fps self)).
Proof.
  intros Hst Hcap Hlen Hm Hcfg Hf Hne Hs Hmr Hpost filename.
  rewrite (upload_accepted suffix w rq srv _ Hf Hne Hs Hmr) in Hpost |- *.
  cbn [fst snd Server.as_post_result Server.part_filename Server.part_stream] in Hpost |- *.
  fold filename in Hpost |- *.
  set (u := PyStr.rstrip_slash (Server.host_url rq) +:+ "/uploads/" +:+ filename) in *.
  assert (Py.truthy (Py.VStr u) = true) as Ht
    by (subst u; by destruct (PyStr.rstrip_slash (Server.host_url rq))).
  destruct (session_assembled self e sched m st u Hst Hcap Hlen Hm
              (reference_delivered self e st
                 {| status_code := 200; json := Some (Py.VDict [("url", Py.VStr u)]) |}
                 [("url", Py.VStr u)] (Py.VStr u) Hcfg Hpost eq_refl eq_refl eq_refl Ht))
    as (st' & Hrun & Hres & _ & _ & Hg & _).
  exists st'. split; [done |]. split; [done |]. split; [| done].
  rewrite Hg. unfold Server.uploaded_file. cbn [Server.uploads].
  apply lookup_insert_eq.
Qed.

Lemma served_session_end_to_end_witness :
  let filename := Server.uuid4 ServerSamples.quiet
                  +:+ ServerSamples.dot_gif "recording_1700000000.gif" in
  ∃ st', run Demo.remote_recorder (ServerSamples.served ServerSamples.gif_request)
             Demo.two_frames ∅ = Returned st' ∧
    final_result (trace st') =
      Some (Py.VStr (PyStr.rstrip_slash (Server.host_url ServerSamples.gif_request)
                     +:+ "/uploads/" +:+ filename)) ∧
    Server.uploaded_file filename
      (Server.upload ServerSamples.dot_gif ServerSamples.quiet
         ServerSamples.gif_request Server.empty).2
      = fs st' !! out_gif Demo.remote_recorder
                    (ServerSamples.served ServerSamples.gif_request) ∧
    fs st' !! out_gif Demo.remote_recorder (ServerSamples.served ServerSamples.gif_request)
      = Some (Gif (spooled (trace Demo.two_frames_remote_exit)).*2
                  (fps Demo.remote_recorder)).
Proof.
  apply (served_session_end_to_end ServerSamples.dot_gif ServerSamples.quiet
           ServerSamples.gif_request Server.empty "recording_1700000000.gif"
           Demo.remote_recorder (ServerSamples.served ServerSamples.gif_request)
           Demo.two_frames ∅ Demo.two_frames_remote_exit).
  - by split.
  - vm_compute. reflexivity.
  - vm_compute. lia.
  - reflexivity.
  - reflexivity.
  - vm_compute. reflexivity.
  - discriminate.
  - reflexivity.
  - reflexivity.
  - reflexivity.
Defined.

(** * The main window *)

Section GuiFacts.

Variable rect_bool : Gui.QRect → bool.
Variable strip : string → string.

Lemma fps_value_offered (c : Gui.fps_choice) :
  Gui.fps_value c ∈ [5; 10; 12; 15; 20; 24; 30]%Z.
Proof. destruct c; cbn; set_solver. Qed.

Lemma initial_consistent (server : string) :
  Gui.consistent rect_bool (Gui.initial server).
Proof. split; by cbn. Qed.

(** One happening keeps the window consistent: by cases on what the
    handler found, clause by clause. *)
Lemma deliver_consistent (ev : Gui.happening) (w w' : Gui.window) :
  Gui.consistent rect_bool w →
  Gui.deliver rect_bool strip ev w = Some w' →
  Gui.consistent rect_bool w'.
Proof.
  intros [H1 H2 H3 H4 H5 H6 H7 H8] Hd.
  destruct w as [sel ind rec sb pb tb ab ptxt stat fc se cb op]. cbn in *. subst.
  destruct ev; cbn in Hd;
    unfold Gui.on_select_area, Gui.on_start, Gui.on_pause, Gui.on_stop,
      Gui.on_screenshot, Gui.on_record_progress, Gui.on_record_finished in Hd;
    cbn in Hd;
    repeat case_match; simplify_eq/=;
    (split; cbn; intros; simplify_eq/=; eauto;
     try (by destruct sb); try (by rewrite ?H5);
     try (by split; [apply fps_value_offered | by destruct (strip se)]);
     try (rewrite andb_false_r; done)).
Qed.

Lemma play_consistent (evs : list Gui.happening) (w w' : Gui.window) :
  Gui.consistent rect_bool w →
  Gui.play rect_bool strip evs w = Some w' →
  Gui.consistent rect_bool w'.
Proof.
  revert w. induction evs as [|ev rest IH]; intros w Hw; cbn.
  - by intros [= <-].
  - destruct (Gui.deliver rect_bool strip ev w) as [w1|] eqn:E; [|done].
    apply IH. by apply (deliver_consistent ev w).
Qed.

End GuiFacts.

(** X13: whatever happens to the window, Pause and Stop are enabled
    together, Select Area and Start are enabled together, Start and Stop
    are never both enabled, and an enabled Stop always has a recorder to
    stop: a click never finds [self.recorder] missing. *)
Theorem buttons_stay_consistent
    (rect_bool : Gui.QRect → bool) (strip : string → string)
    (server : string) (evs : list Gui.happening) (w : Gui.window) :
  Gui.play rect_bool strip evs (Gui.initial server) = Some w →
  Gui.pause_btn w = Gui.stop_btn w ∧
  Gui.select_area_btn w = Gui.start_btn w ∧
  Gui.start_btn w && Gui.stop_btn w = false ∧
  (Gui.stop_btn w = true → is_Some (Gui.recorder w)).
Proof.
  intros H.
  destruct (play_consistent rect_bool strip evs _ w (initial_consistent rect_bool server) H)
    as [H1 H2 H3 H4 _ _ _ _].
  done.
Qed.

Lemma buttons_stay_consistent_witness :
  Gui.pause_btn GuiSamples.busy_window = Gui.stop_btn GuiSamples.busy_window ∧
  Gui.select_area_btn GuiSamples.busy_window = Gui.start_btn GuiSamples.busy_window ∧
  Gui.start_btn GuiSamples.busy_window && Gui.stop_btn GuiSamples.busy_window = false ∧
  (Gui.stop_btn GuiSamples.busy_window = true → is_Some (Gui.recorder GuiSamples.busy_window)).
Proof.
  apply (buttons_stay_consistent GuiSamples.any_rect GuiSamples.no_strip
           "http://localhost:5000" GuiSamples.busy GuiSamples.busy_window).
  vm_compute. reflexivity.
Defined.

(** X14: while the Pause button is enabled its label tells the truth: it
    reads [Resume] when the recorder's pause flag is set and [Pause] when
    it is not. *)
Theorem pause_label_is_truthful
    (rect_bool : Gui.QRect → bool) (strip : string → string)
    (server : string) (evs : list Gui.happening) (w : Gui.window) :
  Gui.play rect_bool strip evs (Gui.initial server) = Some w →
  Gui.pause_btn w = true →
  ∃ h, Gui.recorder w = Some h ∧
    Gui.pause_btn_text w = if _pause (Gui.thread_ctl h) then "Resume" else "Pause".
Proof.
  intros H Hp.
  destruct (play_consistent rect_bool strip evs _ w (initial_consistent rect_bool server) H)
    as [H1 _ _ H4 _ H6 _ _].
  destruct H4 as [h Hh]; [congruence |].
  exists h. split; [done |]. by apply H6.
Qed.

Lemma pause_label_is_truthful_witness :
  ∃ h, Gui.recorder GuiSamples.busy_window = Some h ∧
    Gui.pause_btn_text GuiSamples.busy_window =
      if _pause (Gui.thread_ctl h) then "Resume" else "Pause".
Proof.
  apply (pause_label_is_truthful GuiSamples.any_rect GuiSamples.no_strip
           "http://localhost:5000" GuiSamples.busy GuiSamples.busy_window).
  - vm_compute. reflexivity.
  - reflexivity.
Defined.

(** X15: every recorder the window creates has one of the offered frame
    rates, so [1.0 / self.fps] is defined and [run] reaches its loop as
    soon as the screen grabber can be set up; and its [server_url] is
    [None] or a non-empty string, so a delivery target is configured
    exactly when [server_url] is not [None]. *)
Theorem created_recorder_can_run
    (rect_bool : Gui.QRect → bool) (strip : string → string)
    (server : string) (evs : list Gui.happening) (w : Gui.window) (h : Gui.handle) :
  Gui.play rect_bool strip evs (Gui.initial server) = Some w →
  Gui.recorder w = Some h →
  fps (Gui.thread h) ∈ [5; 10; 12; 15; 20; 24; 30]%Z ∧
  (∀ e, mss_raises e = None → starts (Gui.thread h) e) ∧
  (configured (Gui.thread h) = true ↔ server_url (Gui.thread h) ≠ None).
Proof.
  intros H Hh.
  destruct (play_consistent rect_bool strip evs _ w (initial_consistent rect_bool server) H)
    as [_ _ _ _ _ _ _ H8].
  destruct (H8 h Hh) as [Hfps Hsrv]. split; [done |]. split.
  - intros e He. split; [done |]. intros H0. rewrite H0 in Hfps.
    repeat (apply elem_of_cons in Hfps as [Hfps|Hfps]; [done |]).
    by apply not_elem_of_nil in Hfps.
  - unfold configured. destruct (server_url (Gui.thread h)) as [[|c u]|]; split; done.
Qed.

Lemma created_recorder_can_run_witness :
  fps (Gui.thread GuiSamples.busy_handle) ∈ [5; 10; 12; 15; 20; 24; 30]%Z ∧
  (∀ e, mss_raises e = None → starts (Gui.thread GuiSamples.busy_handle) e) ∧
  (configured (Gui.thread GuiSamples.busy_handle) = true
   ↔ server_url (Gui.thread GuiSamples.busy_handle) ≠ None).
Proof.
  apply (created_recorder_can_run GuiSamples.any_rect GuiSamples.no_strip
           "http://localhost:5000" GuiSamples.busy GuiSamples.busy_window
           GuiSamples.busy_handle).
  - vm_compute. reflexivity.
  - reflexivity.
Defined.

(** X16: as long as the thread of the recorder runs, nothing that
    happens to the window replaces or drops that recorder, a click on
    Start included, and a stop flag that is set stays set. *)
Theorem running_recorder_is_kept
    (rect_bool : Gui.QRect → bool) (strip : string → string)
    (evs : list Gui.happening) (w w' : Gui.window) (h : Gui.handle) :
  Forall (fun ev => ev ≠ Gui.ThreadExits) evs →
  Gui.play rect_bool strip evs w = Some w' →
  Gui.recorder w = Some h → Gui.isRunning h = true →
  ∃ h', Gui.recorder w' = Some h' ∧ Gui.thread h' = Gui.thread h ∧
    Gui.isRunning h' = true ∧
    (_stop (Gui.thread_ctl h) = true → _stop (Gui.thread_ctl h') = true).
Proof.
  intros Hevs. revert w h.
  induction Hevs as [|ev rest Hev _ IH]; intros w h Hplay Hh Hrun.
  - injection Hplay as <-. by exists h.
  - cbn in Hplay.
    destruct (Gui.deliver rect_bool strip ev w) as [w1|] eqn:E; [|done].
    assert (∃ h1, Gui.recorder w1 = Some h1 ∧ Gui.thread h1 = Gui.thread h ∧
              Gui.isRunning h1 = true ∧
              (_stop (Gui.thread_ctl h) = true → _stop (Gui.thread_ctl h1) = true))
      as (h1 & Hh1 & Ht1 & Hr1 & Hs1).
    { destruct w as [sel ind rec sb pb tb ab ptxt stat fc se cb op].
      cbn in Hh. subst rec.
      destruct ev; cbn in E;
        unfold Gui.on_select_area, Gui.on_start, Gui.on_pause, Gui.on_stop,
          Gui.on_screenshot, Gui.on_record_progress, Gui.on_record_finished in E;
        cbn in E;
        rewrite ?Hrun in E; cbn in E;
        repeat case_match; simplify_eq/=; eauto 10. }
    destruct (IH w1 h1 Hplay Hh1 Hr1) as (h' & Hh' & Ht' & Hr' & Hs').
    exists h'. split; [done |]. split; [congruence |]. split; [done |]. auto.
Qed.

Lemma running_recorder_is_kept_witness :
  ∃ h', Gui.recorder GuiSamples.hasty_window = Some h' ∧
    Gui.thread h' = Gui.thread GuiSamples.busy_handle ∧
    Gui.isRunning h' = true ∧
    (_stop (Gui.thread_ctl GuiSamples.busy_handle) = true →
     _stop (Gui.thread_ctl h') = true).
Proof.
  apply (running_recorder_is_kept GuiSamples.any_rect GuiSamples.no_strip
           GuiSamples.hasty GuiSamples.busy_window GuiSamples.hasty_window
           GuiSamples.busy_handle).
  - repeat constructor; discriminate.
  - vm_compute. reflexivity.
  - reflexivity.
  - reflexivity.
Defined.

(** X17: the window acts on a running recorder through [pause()],
    [resume()] and [stop()] only: a click on Pause makes the one call that
    flips the pause flag, a click on Stop calls [stop()], and every other
    click, edit or signal leaves the flags alone. *)
Theorem window_acts_through_calls
    (rect_bool : Gui.QRect → bool) (strip : string → string)
    (ev : Gui.happening) (w w' : Gui.window) (h : Gui.handle) :
  Gui.deliver rect_bool strip ev w = Some w' →
  Gui.recorder w = Some h → Gui.isRunning h = true →
  ev ≠ Gui.ThreadSetsStop → ev ≠ Gui.ThreadExits →
  ∃ h', Gui.recorder w' = Some h' ∧
    Gui.thread_ctl h' = apply_calls (Gui.calls_of ev h) (Gui.thread_ctl h) ∧
    (ev = Gui.ClickPause → _pause (Gui.thread_ctl h') = negb (_pause (Gui.thread_ctl h))) ∧
    (ev = Gui.ClickStop → _stop (Gui.thread_ctl h') = true).
Proof.
  intros E Hh Hrun Hn1 Hn2.
  destruct w as [sel ind rec sb pb tb ab ptxt stat fc se cb op].
  cbn in Hh. subst rec.
  destruct ev; cbn in E;
    unfold Gui.on_select_area, Gui.on_start, Gui.on_pause, Gui.on_stop,
      Gui.on_screenshot, Gui.on_record_progress, Gui.on_record_finished in E;
    cbn in E;
    rewrite ?Hrun in E; cbn in E;
    repeat case_match; simplify_eq/=;
    (eexists; split; [reflexivity |]; cbn;
     destruct (_pause (Gui.thread_ctl h)); simplify_eq/=; by repeat split).
Qed.

Lemma window_acts_through_calls_witness :
  ∃ h', Gui.recorder (Gui.on_pause GuiSamples.busy_window) = Some h' ∧
    Gui.thread_ctl h' =
      apply_calls (Gui.calls_of Gui.ClickPause GuiSamples.busy_handle)
                  (Gui.thread_ctl GuiSamples.busy_handle) ∧
    (Gui.ClickPause = Gui.ClickPause →
     _pause (Gui.thread_ctl h') = negb (_pause (Gui.thread_ctl GuiSamples.busy_handle))) ∧
    (Gui.ClickPause = Gui.ClickStop → _stop (Gui.thread_ctl h') = true).
Proof.
  apply (window_acts_through_calls GuiSamples.any_rect GuiSamples.no_strip
           Gui.ClickPause GuiSamples.busy_window (Gui.on_pause GuiSamples.busy_window)
           GuiSamples.busy_handle).
  - reflexivity.
  - reflexivity.
  - reflexivity.
  - discriminate.
  - discriminate.
Defined.

(** X18: the names of the spool files. The six-digit field of a frame
    name reads back as the frame number and is never shorter than six
    characters; so two frame numbers never share a file, below and above
    999999 alike, every frame file lies in the recorder's temporary
    directory, and none of them is the GIF. *)
Theorem spool_names_are_distinct (self : RecorderThread) (e : env) (n k : nat) :
  PyStr.digits_value (PyStr.fmt_06d n) = Some n ∧
  6 ≤ String.length (PyStr.fmt_06d n) ∧
  (frame_path self n = frame_path self k ↔ n = k) ∧
  PyStr.inside (tmpdir self) (frame_path self n) = true ∧
  frame_path self n ≠ out_gif self e.
Proof.
  split; [apply digits_value_fmt_06d |]. split.
  { unfold PyStr.fmt_06d, PyStr.zfill. rewrite string_length_app.
    assert (∀ j, String.length (PyStr.zeros j) = j) as ->
      by (induction j as [|j IH]; simpl; congruence).
    lia. }
  split; [split; [apply frame_path_inj | by intros ->] |].
  split; [apply inside_pjoin | apply frame_path_not_gif].
Qed.
